(** * CasperJS bootstrap (bin/bootstrap.js): module resolution and CLI dispatch

    A shallow embedding of the environment initialiser of bin/bootstrap.js:
    the patched [require], the command line planner [initCasperCli], the
    version reader [getCasperVersion] and the initialiser body itself,
    followed by the properties established about them. *)

From Stdlib Require Import ZArith Ascii String.
From stdpp Require Import base option list gmap strings pretty.

Local Open Scope Z_scope.

(** ** JavaScript values and strings *)

Module Js.

(** The primitive values the bootstrap manipulates: [undefined], booleans and
    strings.  Characters are code units below 256. *)
Inductive value : Type :=
  | VUndefined
  | VBool (b : bool)
  | VString (s : string).

#[global] Instance value_eq_dec : EqDecision value.
Proof. solve_decision. Defined.

(** ToBoolean: [undefined], [false] and the empty string are falsy. *)
Definition truthy (v : value) : bool :=
  match v with
  | VUndefined => false
  | VBool b => b
  | VString s => negb (bool_decide (s = ""))
  end.

(** ToString. *)
Definition toStr (v : value) : string :=
  match v with
  | VUndefined => "undefined"
  | VBool true => "true"
  | VBool false => "false"
  | VString s => s
  end.

(** [a === b] on primitives. *)
Definition strict_eq (a b : value) : bool := bool_decide (a = b).

(** [a || b]. *)
Definition or_else (a b : value) : value := if truthy a then a else b.

(** [a + b] when one operand is a string. *)
Definition concat (a b : value) : string := toStr a +:+ toStr b.

(** Errors are identified by their [name] and [message]. *)
Record exn : Type := Error { err_name : string; err_message : string }.

Definition CasperError (msg : string) : exn := Error "CasperError" msg.
Definition TypeError (msg : string) : exn := Error "TypeError" msg.

(** Error.prototype.toString, as used by ['...' + e]. *)
Definition exn_str (e : exn) : string :=
  if bool_decide (err_name e = "") then err_message e
  else if bool_decide (err_message e = "") then err_name e
  else err_name e +:+ ": " +:+ err_message e.

(** How an evaluation ends: with a value, with a thrown error, or with the
    host terminating the process ([phantom.exit(code)]). *)
Inductive outcome (A : Type) : Type :=
  | Returns (a : A)
  | Throws (e : exn)
  | Exits (code : Z).
Arguments Returns {A} a.
Arguments Throws {A} e.
Arguments Exits {A} code.

Definition obind {A B} (x : outcome A) (k : A -> outcome B) : outcome B :=
  match x with
  | Returns a => k a
  | Throws e => Throws e
  | Exits c => Exits c
  end.

(** [try { x } catch (e) { h e }]: a process exit is not catchable. *)
Definition try_catch {A} (x : outcome A) (h : exn -> outcome A) : outcome A :=
  match x with
  | Throws e => h e
  | _ => x
  end.

(** *** String helpers *)

Definition is_slash (c : ascii) : bool := bool_decide (c = "/"%char).
Definition is_backslash (c : ascii) : bool := bool_decide (c = "\"%char).

Fixpoint has_slash (s : string) : bool :=
  match s with
  | EmptyString => false
  | String c r => is_slash c || has_slash r
  end.

Fixpoint has_backslash (s : string) : bool :=
  match s with
  | EmptyString => false
  | String c r => is_backslash c || has_backslash r
  end.

(** [s.replace(/\\/g, '/')] *)
Fixpoint backslashes_to_slashes (s : string) : string :=
  match s with
  | EmptyString => EmptyString
  | String c r =>
      String (if is_backslash c then "/"%char else c) (backslashes_to_slashes r)
  end.

(** [s.replace(/\/[^\/]*$/, '')]: the match starts at the last slash and
    runs to the end of the input; without a slash nothing is replaced. *)
Fixpoint cut_last_slash (s : string) : string :=
  match s with
  | EmptyString => EmptyString
  | String c r =>
      if has_slash r then String c (cut_last_slash r)
      else if is_slash c then EmptyString
      else s
  end.

(** [Array.prototype.join]: [undefined] elements print as the empty string. *)
Definition join_str (v : value) : string :=
  match v with
  | VUndefined => ""
  | _ => toStr v
  end.

Fixpoint join (sep : string) (l : list string) : string :=
  match l with
  | [] => ""
  | [x] => x
  | x :: r => x +:+ sep +:+ join sep r
  end.

(** [s.split(c)] for a one character separator: empty pieces are kept and
    the result is never empty. *)
Fixpoint split (c : ascii) (s : string) : list string :=
  match s with
  | EmptyString => [EmptyString]
  | String a r =>
      if bool_decide (a = c) then EmptyString :: split c r
      else match split c r with
           | [] => [String a EmptyString]
           | p :: ps => String a p :: ps
           end
  end.

(** WhiteSpace and LineTerminator code units below 256:
    TAB, LF, VT, FF, CR, SP, NBSP. *)
Definition is_white (c : ascii) : bool :=
  match c with
  | "009" | "010" | "011" | "012" | "013" | " " | "160" => true
  | _ => false
  end%char.

Definition is_line_terminator (c : ascii) : bool :=
  match c with
  | "010" | "013" => true
  | _ => false
  end%char.

Fixpoint all_white (s : string) : bool :=
  match s with
  | EmptyString => true
  | String c r => is_white c && all_white r
  end.

Fixpoint trim_left (s : string) : string :=
  match s with
  | EmptyString => EmptyString
  | String c r => if is_white c then trim_left r else s
  end.

Fixpoint trim_right (s : string) : string :=
  match s with
  | EmptyString => EmptyString
  | String c r => if all_white s then EmptyString else String c (trim_right r)
  end.

(** [s.trim()] *)
Definition trim (s : string) : string := trim_right (trim_left s).

(** The longest prefix without a line terminator: what a greedy run of
    [.] captures. *)
Fixpoint until_line_terminator (s : string) : string :=
  match s with
  | EmptyString => EmptyString
  | String c r =>
      if is_line_terminator c then EmptyString
      else String c (until_line_terminator r)
  end.

(** [s.replace(/.*\//, '')]: [.] does not match a line terminator, so the
    match lies in the first line that holds a slash and runs from the start
    of that line through its last slash. *)
Fixpoint line_has_slash (s : string) : bool :=
  match s with
  | EmptyString => false
  | String c r =>
      if is_line_terminator c then false else is_slash c || line_has_slash r
  end.

Fixpoint after_last_line_slash (s : string) : string :=
  match s with
  | EmptyString => EmptyString
  | String c r =>
      if is_line_terminator c then s
      else if line_has_slash r then after_last_line_slash r
      else if is_slash c then r
      else s
  end.

Fixpoint remove_dirs (s : string) : string :=
  match s with
  | EmptyString => EmptyString
  | String c r =>
      if is_line_terminator c then String c (remove_dirs r)
      else if line_has_slash s then after_last_line_slash s
      else String c (remove_dirs r)
  end.

(** [/^[a-z]{1,2}:/i.test(s)] *)
Definition is_letter (c : ascii) : bool :=
  let n := Z.of_N (N_of_ascii c) in
  ((65 <=? n) && (n <=? 90)) || ((97 <=? n) && (n <=? 122)).

Definition is_colon (c : ascii) : bool := bool_decide (c = ":"%char).

Definition drive_prefix (s : string) : bool :=
  match s with
  | String a (String b r) =>
      is_letter a &&
      (is_colon b ||
       (is_letter b && match r with
                       | String c _ => is_colon c
                       | EmptyString => false
                       end))
  | _ => false
  end.

(** [strip_prefix p s] is the rest of [s] after the prefix [p], if any. *)
Fixpoint strip_prefix (p s : string) : option string :=
  match p, s with
  | EmptyString, _ => Some s
  | String a p', String b s' =>
      if bool_decide (a = b) then strip_prefix p' s' else None
  | String _ _, EmptyString => None
  end.

End Js.
Export Js.

(** ** The file-system module

    The object returned by [require('fs')].  The members the host always
    provides are total functions; [basename], [dirname], [isWindows],
    [joinPath] and [pathJoin] are own properties that may be absent. *)

Record FsModule : Type := {
  exists_ : value -> bool;
  isFile : value -> bool;
  isDirectory : value -> bool;
  absolute : value -> string;
  read : value -> outcome string;
  separator : string;
  workingDirectory : value;
  basename : option (value -> outcome string);
  dirname : option (value -> value);
  isWindows : option (list value -> outcome bool);
  joinPath : option (list value -> string);
  pathJoin : option (list value -> string)
}.

Definition set_workingDirectory (v : value) (m : FsModule) : FsModule :=
  {| exists_ := exists_ m;
     isFile := isFile m;
     isDirectory := isDirectory m;
     absolute := absolute m;
     read := read m;
     separator := separator m;
     workingDirectory := v;
     basename := basename m;
     dirname := dirname m;
     isWindows := isWindows m;
     joinPath := joinPath m;
     pathJoin := pathJoin m |}.

Definition set_basename (v : option (value -> outcome string)) (m : FsModule) : FsModule :=
  {| exists_ := exists_ m;
     isFile := isFile m;
     isDirectory := isDirectory m;
     absolute := absolute m;
     read := read m;
     separator := separator m;
     workingDirectory := workingDirectory m;
     basename := v;
     dirname := dirname m;
     isWindows := isWindows m;
     joinPath := joinPath m;
     pathJoin := pathJoin m |}.

Definition set_dirname (v : option (value -> value)) (m : FsModule) : FsModule :=
  {| exists_ := exists_ m;
     isFile := isFile m;
     isDirectory := isDirectory m;
     absolute := absolute m;
     read := read m;
     separator := separator m;
     workingDirectory := workingDirectory m;
     basename := basename m;
     dirname := v;
     isWindows := isWindows m;
     joinPath := joinPath m;
     pathJoin := pathJoin m |}.

Definition set_isWindows (v : option (list value -> outcome bool)) (m : FsModule) : FsModule :=
  {| exists_ := exists_ m;
     isFile := isFile m;
     isDirectory := isDirectory m;
     absolute := absolute m;
     read := read m;
     separator := separator m;
     workingDirectory := workingDirectory m;
     basename := basename m;
     dirname := dirname m;
     isWindows := v;
     joinPath := joinPath m;
     pathJoin := pathJoin m |}.

Definition set_pathJoin (v : option (list value -> string)) (m : FsModule) : FsModule :=
  {| exists_ := exists_ m;
     isFile := isFile m;
     isDirectory := isDirectory m;
     absolute := absolute m;
     read := read m;
     separator := separator m;
     workingDirectory := workingDirectory m;
     basename := basename m;
     dirname := dirname m;
     isWindows := isWindows m;
     joinPath := joinPath m;
     pathJoin := v |}.

(** The replacement [fs.basename] (lines 119-121). *)
Definition basename_polyfill (path : value) : outcome string :=
  match path with
  | VString s => Returns (remove_dirs s)
  | _ => Throws (TypeError "undefined is not a function")
  end.

(** The replacement [fs.dirname] (lines 124-127). *)
Definition dirname_polyfill (path : value) : value :=
  if truthy path
  then VString (cut_last_slash (backslashes_to_slashes (toStr path)))
  else VUndefined.

(** The replacement [fs.isWindows] (lines 130-133); [wd] is
    [this.workingDirectory]. *)
Definition isWindows_polyfill (wd : value) (arguments : list value)
    : outcome bool :=
  let testPath := or_else (default VUndefined (head arguments)) wd in
  if drive_prefix (toStr testPath) then Returns true
  else
    match testPath with
    | VString s => Returns (bool_decide (is_Some (strip_prefix "\\" s)))
    | _ => Throws (TypeError "undefined is not a function")
    end.

(** The replacement [fs.pathJoin] (lines 138-140); [sep] is
    [this.separator]. *)
Definition pathJoin_polyfill (sep : string) (segments : list value) : string :=
  join sep (map join_str segments).

(** [patchFs] (lines 117-143). *)
Definition patchFs (m : FsModule) : FsModule :=
  let m1 :=
    match basename m with
    | None => set_basename (Some basename_polyfill) m
    | Some _ => m
    end in
  let m2 :=
    match dirname m1 with
    | None => set_dirname (Some dirname_polyfill) m1
    | Some _ => m1
    end in
  let m3 :=
    match isWindows m2 with
    | None => set_isWindows (Some (isWindows_polyfill (workingDirectory m2))) m2
    | Some _ => m2
    end in
  match joinPath m3 with
  | Some j => set_pathJoin (Some j) m3
  | None =>
      match pathJoin m3 with
      | None => set_pathJoin (Some (pathJoin_polyfill (separator m3))) m3
      | Some _ => m3
      end
  end.

(** Calling a member of an object: an absent member is not callable. *)
Definition call_method {A B} (member : option (A -> B)) (a : A) : outcome B :=
  match member with
  | Some f => Returns (f a)
  | None => Throws (TypeError "undefined is not a function")
  end.

(** ** Module loaders

    A loader is a function object: it lives at a location of the heap, which
    is its identity, and carries the properties [cache], [extensions],
    [stubs] and [patched].  Its code is either the host's primitive or the
    closure [patchedRequire] built by [patchRequire], which captures the
    loader it wraps. *)

Definition loc : Type := positive.

(** A property holding an object: [undefined] or a reference. *)
Definition ref : Type := option loc.

Inductive code : Type :=
  | Native (f : value -> outcome loc)
  | PatchedRequire (inner : code).

Record funobj : Type := {
  fn_code : code;
  fn_cache : ref;
  fn_extensions : ref;
  fn_stubs : ref;
  fn_patched : value
}.

(** ** The process state *)

Record PhantomVersion : Type := {
  pv_major : Z;
  pv_minor : Z;
  pv_patch : Z
}.

Record CasperVersion : Type := {
  major : Z;
  minor : Z;
  patch : Z;
  ident : string
}.

(** The result of the argument parser: named options and positionals. *)
Record CasperArgs : Type := {
  options : gmap string value;
  args : list string
}.

Inductive handler : Type :=
  | HostHandler
  | onPhantomError.

(** What the process does to the outside. *)
Inductive event : Type :=
  | ConsoleError (message : string)
  | ConsoleLog (message : string)
  | InjectJs (script : value).

(** The properties of the [phantom] object the initialiser reads or writes;
    [ph_args] is [None] when the host provides no [phantom.args] array. *)
Record Phantom : Type := {
  ph_args : option (list string);
  ph_version : PhantomVersion;
  ph_onError : handler;
  casperLoaded : value;
  casperPath : value;
  casperVersion : option CasperVersion;
  casperArgs : option CasperArgs;
  casperScript : value;
  casperScriptBaseDir : value;
  casperTest : value;
  casperSelfTest : value
}.

Definition set_ph_onError (v : handler) (p : Phantom) : Phantom :=
  {| ph_args := ph_args p; ph_version := ph_version p; ph_onError := v; casperLoaded := casperLoaded p; casperPath := casperPath p; casperVersion := casperVersion p; casperArgs := casperArgs p; casperScript := casperScript p; casperScriptBaseDir := casperScriptBaseDir p; casperTest := casperTest p; casperSelfTest := casperSelfTest p |}.

Definition set_casperLoaded (v : value) (p : Phantom) : Phantom :=
  {| ph_args := ph_args p; ph_version := ph_version p; ph_onError := ph_onError p; casperLoaded := v; casperPath := casperPath p; casperVersion := casperVersion p; casperArgs := casperArgs p; casperScript := casperScript p; casperScriptBaseDir := casperScriptBaseDir p; casperTest := casperTest p; casperSelfTest := casperSelfTest p |}.

Definition set_casperPath (v : value) (p : Phantom) : Phantom :=
  {| ph_args := ph_args p; ph_version := ph_version p; ph_onError := ph_onError p; casperLoaded := casperLoaded p; casperPath := v; casperVersion := casperVersion p; casperArgs := casperArgs p; casperScript := casperScript p; casperScriptBaseDir := casperScriptBaseDir p; casperTest := casperTest p; casperSelfTest := casperSelfTest p |}.

Definition set_casperVersion (v : option CasperVersion) (p : Phantom) : Phantom :=
  {| ph_args := ph_args p; ph_version := ph_version p; ph_onError := ph_onError p; casperLoaded := casperLoaded p; casperPath := casperPath p; casperVersion := v; casperArgs := casperArgs p; casperScript := casperScript p; casperScriptBaseDir := casperScriptBaseDir p; casperTest := casperTest p; casperSelfTest := casperSelfTest p |}.

Definition set_casperArgs (v : option CasperArgs) (p : Phantom) : Phantom :=
  {| ph_args := ph_args p; ph_version := ph_version p; ph_onError := ph_onError p; casperLoaded := casperLoaded p; casperPath := casperPath p; casperVersion := casperVersion p; casperArgs := v; casperScript := casperScript p; casperScriptBaseDir := casperScriptBaseDir p; casperTest := casperTest p; casperSelfTest := casperSelfTest p |}.

Definition set_casperScript (v : value) (p : Phantom) : Phantom :=
  {| ph_args := ph_args p; ph_version := ph_version p; ph_onError := ph_onError p; casperLoaded := casperLoaded p; casperPath := casperPath p; casperVersion := casperVersion p; casperArgs := casperArgs p; casperScript := v; casperScriptBaseDir := casperScriptBaseDir p; casperTest := casperTest p; casperSelfTest := casperSelfTest p |}.

Definition set_casperScriptBaseDir (v : value) (p : Phantom) : Phantom :=
  {| ph_args := ph_args p; ph_version := ph_version p; ph_onError := ph_onError p; casperLoaded := casperLoaded p; casperPath := casperPath p; casperVersion := casperVersion p; casperArgs := casperArgs p; casperScript := casperScript p; casperScriptBaseDir := v; casperTest := casperTest p; casperSelfTest := casperSelfTest p |}.

Definition set_casperTest (v : value) (p : Phantom) : Phantom :=
  {| ph_args := ph_args p; ph_version := ph_version p; ph_onError := ph_onError p; casperLoaded := casperLoaded p; casperPath := casperPath p; casperVersion := casperVersion p; casperArgs := casperArgs p; casperScript := casperScript p; casperScriptBaseDir := casperScriptBaseDir p; casperTest := v; casperSelfTest := casperSelfTest p |}.

Definition set_casperSelfTest (v : value) (p : Phantom) : Phantom :=
  {| ph_args := ph_args p; ph_version := ph_version p; ph_onError := ph_onError p; casperLoaded := casperLoaded p; casperPath := casperPath p; casperVersion := casperVersion p; casperArgs := casperArgs p; casperScript := casperScript p; casperScriptBaseDir := casperScriptBaseDir p; casperTest := casperTest p; casperSelfTest := v |}.

Record World : Type := {
  fs : FsModule;
  heap : gmap loc funobj;
  global_require : loc;
  global___require : option loc;
  global_patchRequire : bool;
  phantom : Phantom;
  trace : list event
}.

Definition set_fs (v : FsModule) (w : World) : World :=
  {| fs := v; heap := heap w; global_require := global_require w; global___require := global___require w; global_patchRequire := global_patchRequire w; phantom := phantom w; trace := trace w |}.

Definition set_heap (v : gmap loc funobj) (w : World) : World :=
  {| fs := fs w; heap := v; global_require := global_require w; global___require := global___require w; global_patchRequire := global_patchRequire w; phantom := phantom w; trace := trace w |}.

Definition set_global_require (v : loc) (w : World) : World :=
  {| fs := fs w; heap := heap w; global_require := v; global___require := global___require w; global_patchRequire := global_patchRequire w; phantom := phantom w; trace := trace w |}.

Definition set_global___require (v : option loc) (w : World) : World :=
  {| fs := fs w; heap := heap w; global_require := global_require w; global___require := v; global_patchRequire := global_patchRequire w; phantom := phantom w; trace := trace w |}.

Definition set_global_patchRequire (v : bool) (w : World) : World :=
  {| fs := fs w; heap := heap w; global_require := global_require w; global___require := global___require w; global_patchRequire := v; phantom := phantom w; trace := trace w |}.

Definition set_phantom (v : Phantom) (w : World) : World :=
  {| fs := fs w; heap := heap w; global_require := global_require w; global___require := global___require w; global_patchRequire := global_patchRequire w; phantom := v; trace := trace w |}.

Definition set_trace (v : list event) (w : World) : World :=
  {| fs := fs w; heap := heap w; global_require := global_require w; global___require := global___require w; global_patchRequire := global_patchRequire w; phantom := phantom w; trace := v |}.

Definition update_phantom (f : Phantom -> Phantom) (w : World) : World :=
  set_phantom (f (phantom w)) w.

Definition log_event (e : event) (w : World) : World :=
  set_trace (trace w ++ [e]) w.

(** ** Numeric coercion: [~~s]

    ToNumber on strings (ES5 9.3.1) followed by ToInt32 (ES5 9.5).  The
    literal is read exactly as a sign, a mantissa and a power of ten, rounded
    to the nearest double and truncated. *)

Module Num.

Definition digit_of (c : ascii) : option Z :=
  let n := Z.of_N (N_of_ascii c) in
  if (48 <=? n) && (n <=? 57) then Some (n - 48) else None.

Definition hex_digit_of (c : ascii) : option Z :=
  let n := Z.of_N (N_of_ascii c) in
  if (48 <=? n) && (n <=? 57) then Some (n - 48)
  else if (97 <=? n) && (n <=? 102) then Some (n - 87)
  else if (65 <=? n) && (n <=? 70) then Some (n - 55)
  else None.

(** The longest prefix of decimal digits, and what follows it. *)
Fixpoint span_digits (s : string) : list Z * string :=
  match s with
  | EmptyString => ([], EmptyString)
  | String c r =>
      match digit_of c with
      | Some d => let '(ds, rest) := span_digits r in (d :: ds, rest)
      | None => ([], s)
      end
  end.

Definition digits_value (base : Z) (ds : list Z) : Z :=
  fold_left (fun acc d => acc * base + d) ds 0.

Fixpoint hex_digits (s : string) : option (list Z) :=
  match s with
  | EmptyString => Some []
  | String c r =>
      match hex_digit_of c, hex_digits r with
      | Some d, Some ds => Some (d :: ds)
      | _, _ => None
      end
  end.

(** The Number a string converts to, before rounding: not a number, an
    infinity, or (-1)^neg * mantissa * 10^exp10. *)
Inductive number : Type :=
  | NaN
  | Infinity (neg : bool)
  | Finite (neg : bool) (mantissa : Z) (exp10 : Z).

(** ExponentPart_opt followed by the end of the input. *)
Definition exponent_part (s : string) : option Z :=
  match s with
  | EmptyString => Some 0
  | String c r =>
      if bool_decide (c = "e"%char) || bool_decide (c = "E"%char) then
        let '(neg, r') :=
          match r with
          | String "+" r' => (false, r')
          | String "-" r' => (true, r')
          | _ => (false, r)
          end in
        match span_digits r' with
        | (d :: ds, EmptyString) =>
            let v := digits_value 10 (d :: ds) in
            Some (if neg then - v else v)
        | _ => None
        end
      else None
  end.

(** StrUnsignedDecimalLiteral. *)
Definition unsigned_decimal (neg : bool) (s : string) : number :=
  if bool_decide (s = "Infinity") then Infinity neg
  else
    let '(ip, r1) := span_digits s in
    match r1 with
    | String "." r2 =>
        let '(fp, r3) := span_digits r2 in
        match ip, fp with
        | [], [] => NaN
        | _, _ =>
            match exponent_part r3 with
            | Some e => Finite neg (digits_value 10 (ip ++ fp))
                          (e - Z.of_nat (length fp))
            | None => NaN
            end
        end
    | _ =>
        match ip with
        | [] => NaN
        | _ =>
            match exponent_part r1 with
            | Some e => Finite neg (digits_value 10 ip) e
            | None => NaN
            end
        end
    end.

(** HexIntegerLiteral. *)
Definition hex_literal (s : string) : option Z :=
  match s with
  | String "0" (String x r) =>
      if bool_decide (x = "x"%char) || bool_decide (x = "X"%char) then
        match r, hex_digits r with
        | String _ _, Some ds => Some (digits_value 16 ds)
        | _, _ => None
        end
      else None
  | _ => None
  end.

(** ToNumber applied to a string. *)
Definition ToNumber (s : string) : number :=
  let t := trim s in
  match t with
  | EmptyString => Finite false 0 0
  | String "+" r => unsigned_decimal false r
  | String "-" r => unsigned_decimal true r
  | _ =>
      match hex_literal t with
      | Some n => Finite false n 0
      | None => unsigned_decimal false t
      end
  end.

(** [a / b] (with [0 <= a], [0 < b]) rounded to the nearest double, ties to
    even, then truncated to an integer.  Doubles carry 53 significant bits;
    a value too large for a double rounds to an infinity, which ToInt32 maps
    to 0 like every multiple of 2^32, and values below 1/2 truncate to 0
    whatever their precision. *)
Definition round_trunc (a b : Z) : Z :=
  if a =? 0 then 0
  else
    let e0 := Z.log2 a - Z.log2 b in
    let ge := if 0 <=? e0 then b * 2 ^ e0 <=? a else b <=? a * 2 ^ (- e0) in
    let e := if ge then e0 + 1 else e0 in
    let s := e - 53 in
    let num := if 0 <=? s then a else a * 2 ^ (- s) in
    let den := if 0 <=? s then b * 2 ^ s else b in
    let q0 := num / den in
    let r := num mod den in
    let q :=
      if (den <? 2 * r) || ((2 * r =? den) && Z.odd q0) then q0 + 1 else q0 in
    if 0 <=? s then q * 2 ^ s else q / 2 ^ (- s).

(** ToInt32. *)
Definition wrap32 (n : Z) : Z :=
  let m := n mod 2 ^ 32 in
  if 2 ^ 31 <=? m then m - 2 ^ 32 else m.

Definition ToInt32 (x : number) : Z :=
  match x with
  | NaN => 0
  | Infinity _ => 0
  | Finite neg m e =>
      let t := if 0 <=? e then round_trunc (m * 10 ^ e) 1
               else round_trunc m (10 ^ (- e)) in
      wrap32 (if neg then - t else t)
  end.

(** [~~s] for a string [s]. *)
Definition double_tilde (s : string) : Z := ToInt32 (ToNumber s).

End Num.

(** ** The version of the package (lines 279-296) *)

(** [n || 0] on an integer. *)
Definition or_zero (n : Z) : Z := if n =? 0 then 0 else n.

(** The element [i] of an array of strings. *)
Definition nth_string (l : list string) (i : nat) : value :=
  match l !! i with
  | Some s => VString s
  | None => VUndefined
  end.

(** The part of [getCasperVersion] that reads [pkg.version]. *)
Definition parseVersion (version : string) : outcome CasperVersion :=
  let parts := split "." (trim version) in
  if (Z.of_nat (length parts) <? 3) then
    Throws (CasperError "Invalid version number")
  else
    let part i := toStr (nth_string parts i) in
    let patchPart := split "-" (part 2%nat) in
    Returns {|
      major := or_zero (Num.double_tilde (part 0%nat));
      minor := or_zero (Num.double_tilde (part 1%nat));
      patch := or_zero (Num.double_tilde (toStr (nth_string patchPart 0)));
      ident := toStr (or_else (nth_string patchPart 1) (VString ""))
    |}.

(** [casperVersion.toString()] *)
Definition version_toString (v : CasperVersion) : string :=
  let version := join "." [pretty (major v); pretty (minor v); pretty (patch v)] in
  if truthy (VString (ident v)) then join "-" [version; ident v] else version.

(** ** Effects: state, thrown errors and process exit *)

Definition M (A : Type) : Type := World -> outcome A * World.

Definition ret {A} (a : A) : M A := fun w => (Returns a, w).

Definition bind {A B} (m : M A) (k : A -> M B) : M B := fun w =>
  match m w with
  | (Returns a, w') => k a w'
  | (Throws e, w') => (Throws e, w')
  | (Exits c, w') => (Exits c, w')
  end.

Notation "'let!' x := m 'in' k" := (bind m (fun x => k))
  (at level 10, x pattern, m at level 100, k at level 200).

Definition lift {A} (x : outcome A) : M A := fun w => (x, w).
Definition reads {A} (f : World -> A) : M A := fun w => (Returns (f w), w).
Definition modify (f : World -> World) : M unit := fun w => (Returns tt, f w).
Definition throw {A} (e : exn) : M A := lift (Throws e).

(** [try { m } catch (e) { h e }] *)
Definition try_catchM {A} (m : M A) (h : exn -> M A) : M A := fun w =>
  match m w with
  | (Throws e, w') => h e w'
  | r => r
  end.

(** [phantom.exit(code)]: evaluation is followed up to the call, and
    [Exits code] comes with the state in which [exit] was called. *)
Definition phantom_exit {A} (code : Z) : M A := lift (Exits code).

(** [__die] (lines 77-82). *)
Definition __die {A} (message : value) : M A :=
  let! _ := (if truthy message
             then modify (log_event (ConsoleError (toStr message)))
             else ret tt) in
  phantom_exit 1.

(** [__terminate] (lines 84-89); [phantom.exit()] is exit code 0. *)
Definition __terminate {A} (message : value) : M A :=
  let! _ := (if truthy message
             then modify (log_event (ConsoleLog (toStr message)))
             else ret tt) in
  phantom_exit 0.

(** Calls into the file-system module held by the state. *)
Definition fs_pathJoin (segments : list value) : M string := fun w =>
  (call_method (pathJoin (fs w)) segments, w).
Definition fs_dirname (path : value) : M value := fun w =>
  (call_method (dirname (fs w)) path, w).
Definition fs_absolute (path : value) : M string :=
  reads (fun w => absolute (fs w) path).
Definition fs_isFile (path : value) : M bool :=
  reads (fun w => isFile (fs w) path).

(** ** The patched require (lines 181-219) *)

(** [array.pop()] of a freshly built array: its last element. *)
Definition pop (l : list value) : value := default VUndefined (last l).

Definition casperBuiltinPath (w : World) (path : value) : outcome value :=
  obind (call_method (pathJoin (fs w))
           [casperPath (phantom w); VString "modules";
            VString (concat path (VString ".js"))]) (fun absPath =>
  Returns (if isFile (fs w) (VString absPath)
           then VString absPath else VUndefined)).

Definition localModulePath (w : World) (path : value) : outcome value :=
  let baseDir :=
    or_else (casperScriptBaseDir (phantom w)) (workingDirectory (fs w)) in
  obind (call_method (pathJoin (fs w)) [baseDir; path]) (fun p1 =>
  obind (call_method (pathJoin (fs w))
           [baseDir; VString (concat path (VString ".js"))]) (fun p2 =>
  let paths := [VString (absolute (fs w) (VString p1));
                VString (absolute (fs w) (VString p2))] in
  Returns (pop (List.filter (isFile (fs w)) paths)))).

(** The closure [patchedRequire]; [require] is the loader it captured. *)
Definition patchedRequire (w : World) (require : value -> outcome loc)
    (path : value) : outcome loc :=
  obind (casperBuiltinPath w path) (fun moduleFilePath =>
  if truthy moduleFilePath then require moduleFilePath
  else
    obind (localModulePath w path) (fun moduleFilePath =>
    if truthy moduleFilePath then require moduleFilePath
    else
      try_catch (require path) (fun _ =>
        Throws (CasperError (concat (VString "Can't find module ") path))))).

(** Running the code of a loader. *)
Fixpoint run_code (w : World) (c : code) (path : value) : outcome loc :=
  match c with
  | Native f => f path
  | PatchedRequire inner => patchedRequire w (run_code w inner) path
  end.

(** Calling the function object at [r]. *)
Definition call_loader (r : loc) (path : value) : M loc := fun w =>
  match heap w !! r with
  | Some o => (run_code w (fn_code o) path, w)
  | None => (Throws (TypeError "undefined is not a function"), w)
  end.

(** [patchRequire]: [None] when [require] is not an object of the heap. *)
Definition patchRequire (h : gmap loc funobj) (require : loc)
    : option (gmap loc funobj * loc) :=
  match h !! require with
  | None => None
  | Some r =>
      if truthy (fn_patched r) then Some (h, require)
      else
        let patched := fresh (dom h) in
        Some (<[patched := {| fn_code := PatchedRequire (fn_code r);
                              fn_cache := fn_cache r;
                              fn_extensions := fn_extensions r;
                              fn_stubs := fn_stubs r;
                              fn_patched := VBool true |}]> h, patched)
  end.

(** ** The parsed arguments *)

(** Modelled from the spec: the accessors [get] and [drop] of the object the
    argument parser returns (modules/cli.js is not among the sources).
    [get(index)] is the positional at that index, [get(name)] the option of
    that name, [undefined] when absent; [drop(token)] removes the positionals
    equal to the token, keeps the order of the others and does nothing when
    the token is absent. *)
Definition get_arg (ca : CasperArgs) (index : nat) : value :=
  nth_string (args ca) index.

Definition get_option (ca : CasperArgs) (name : string) : value :=
  default VUndefined (options ca !! name).

Definition drop (what : value) (ca : CasperArgs) : CasperArgs :=
  {| options := options ca;
     args := List.filter (fun a => negb (strict_eq (VString a) what)) (args ca) |}.

Definition set_option (name : string) (v : value) (ca : CasperArgs) : CasperArgs :=
  {| options := <[name := v]> (options ca); args := args ca |}.

Definition push_arg (a : string) (ca : CasperArgs) : CasperArgs :=
  {| options := options ca; args := args ca ++ [a] |}.

(** ** The host

    What the initialiser obtains from its environment besides the state:
    [JSON.parse] followed by the read of [.version] (the version when it is a
    string), the [parse] function of the module object [require('cli')]
    returns, and [phantom.injectJs]. *)
Record Host : Type := {
  JSON_parse : string -> outcome (option string);
  cli_parse : loc -> option (list string) -> outcome CasperArgs;
  injectJs : value -> bool
}.

(** ** The command line planner (lines 224-265) *)

Definition nl : string := String "010"%char EmptyString.

(** The object [phantom.casperArgs]; [initCasperCli] receives this very
    object as its argument, so it is read and updated in the state. *)
Definition the_casperArgs : M CasperArgs := fun w =>
  match casperArgs (phantom w) with
  | Some ca => (Returns ca, w)
  | None => (Throws (TypeError "undefined is not an object"), w)
  end.

Definition update_args (f : CasperArgs -> CasperArgs) : M unit :=
  modify (update_phantom (fun p => set_casperArgs (f <$> casperArgs p) p)).

Definition casperVersion_toString : M string := fun w =>
  match casperVersion (phantom w) with
  | Some v => (Returns (version_toString v), w)
  | None => (Throws (TypeError "undefined is not an object"), w)
  end.

(** [printHelp] (lines 164-171). *)
Definition printHelp {A} : M A :=
  let! v := reads (fun w => ph_version (phantom w)) in
  let phantomVersion :=
    join "." [pretty (pv_major v); pretty (pv_minor v); pretty (pv_patch v)] in
  let! cv := casperVersion_toString in
  let! root := reads (fun w => casperPath (phantom w)) in
  let! usage := fs_pathJoin [root; VString "bin"; VString "usage.txt"] in
  let! text := (fun w => (read (fs w) (VString usage), w)) in
  __terminate (VString (join nl
    ["CasperJS version " +:+ cv +:+ " at " +:+ toStr root +:+
       ", using PhantomJS version " +:+ phantomVersion;
     text])).

(** The decision table (lines 225-245). *)
Definition cliTable : M unit :=
  let! root := reads (fun w => casperPath (phantom w)) in
  let! baseTestsPath := fs_pathJoin [root; VString "tests"] in
  let! ca := the_casperArgs in
  if truthy (get_option ca "version") then
    let! v := casperVersion_toString in
    __terminate (VString v)
  else if strict_eq (get_arg ca 0) (VString "test") then
    let! run := fs_pathJoin [VString baseTestsPath; VString "run.js"] in
    let! script := fs_absolute (VString run) in
    let! _ := modify (update_phantom (set_casperScript (VString script))) in
    let! _ := modify (update_phantom (set_casperTest (VBool true))) in
    let! _ := update_args (drop (VString "test")) in
    let! ca := the_casperArgs in
    let! dir := fs_dirname (get_arg ca 0) in
    modify (update_phantom (set_casperScriptBaseDir dir))
  else if strict_eq (get_arg ca 0) (VString "selftest") then
    let! run := fs_pathJoin [VString baseTestsPath; VString "run.js"] in
    let! script := fs_absolute (VString run) in
    let! _ := modify (update_phantom (set_casperScript (VString script))) in
    let! _ := modify (update_phantom (set_casperTest (VBool true))) in
    let! _ := modify (update_phantom (set_casperSelfTest (VBool true))) in
    let! includes :=
      fs_pathJoin [VString baseTestsPath; VString "selftest.js"] in
    let! _ := update_args (set_option "includes" (VString includes)) in
    let! ca := the_casperArgs in
    let! _ := (if (length (args ca) <=? 1)%nat then
                 let! suites :=
                   fs_pathJoin [VString baseTestsPath; VString "suites"] in
                 update_args (push_arg suites)
               else ret tt) in
    let! _ := update_args (drop (VString "selftest")) in
    let! ca := the_casperArgs in
    let! target := (if truthy (get_arg ca 1) then ret (get_arg ca 1)
                    else
                      let! script := reads (fun w => casperScript (phantom w)) in
                      fs_dirname script) in
    let! dir := fs_dirname target in
    modify (update_phantom (set_casperScriptBaseDir dir))
  else if (length (args ca) =? 0)%nat || truthy (get_option ca "help") then
    printHelp
  else ret tt.

(** After the table (lines 247-264). *)
Definition cliLaunch : M unit :=
  let! script := reads (fun w => casperScript (phantom w)) in
  let! _ := (if negb (truthy script) then
               let! ca := the_casperArgs in
               modify (update_phantom (set_casperScript (get_arg ca 0)))
             else ret tt) in
  let! script := reads (fun w => casperScript (phantom w)) in
  let! is_file := fs_isFile script in
  if negb is_file then
    __die (VString (concat (VString "Unable to open file: ") script))
  else
    let! base := reads (fun w => casperScriptBaseDir (phantom w)) in
    let! _ := (if negb (truthy base) then
                 let! script := reads (fun w => casperScript (phantom w)) in
                 let! dir := fs_dirname script in
                 let scriptDir :=
                   if strict_eq dir script then VString "." else dir in
                 let! abs := fs_absolute scriptDir in
                 modify (update_phantom (set_casperScriptBaseDir (VString abs)))
               else ret tt) in
    let! script := reads (fun w => casperScript (phantom w)) in
    update_args (drop script).

Definition initCasperCli : M unit :=
  let! _ := cliTable in
  cliLaunch.

(** ** The initialiser (lines 66-318) *)

(** The required version check (lines 91-101). *)
Definition checkVersion : M unit :=
  let! version := reads (fun w => ph_version (phantom w)) in
  if negb (pv_major version =? 1) then
    __die (VString "CasperJS needs PhantomJS v1.x")
  else if pv_minor version <? 8 then
    __die (VString "CasperJS needs at least PhantomJS v1.8 or later.")
  else if (pv_minor version =? 8) && (pv_patch version <? 1) then
    __die (VString "CasperJS needs at least PhantomJS v1.8.1 or later.")
  else ret tt.

(** The callbacks of [phantom.args.map] and of [filter] (lines 148-155). *)
Definition _map (m : FsModule) (arg : string) : value :=
  match strip_prefix "--casper-path=" arg with
  | Some rest => VString (absolute m (VString (until_line_terminator rest)))
  | None => VUndefined
  end.

Definition _filter (m : FsModule) (path : value) : bool := isDirectory m path.

(** The root path discovery (lines 146-159). *)
Definition findCasperPath : M unit :=
  let! root := reads (fun w => casperPath (phantom w)) in
  if negb (truthy root) then
    try_catchM
      (let! argv := (fun w =>
         match ph_args (phantom w) with
         | Some l => (Returns l, w)
         | None => (Throws (TypeError "undefined is not an object"), w)
         end) in
       let! m := reads fs in
       let found :=
         pop (List.filter (_filter m) (map (_map m) argv)) in
       modify (update_phantom (set_casperPath found)))
      (fun _ => __die (VString
         "Couldn't find nor compute phantom.casperPath, exiting."))
  else ret tt.

(** [getCasperVersion] (lines 268-297). *)
Definition getCasperVersion (host : Host) (path : value) : M CasperVersion :=
  let! joined := fs_pathJoin [path; VString "package.json"] in
  let! pkgFile := fs_absolute (VString joined) in
  let! found := reads (fun w => exists_ (fs w) (VString pkgFile)) in
  if negb found then
    throw (CasperError ("Cannot find package.json at " +:+ pkgFile))
  else
    let! version :=
      try_catchM
        (let! text := (fun w => (read (fs w) (VString pkgFile), w)) in
         lift (JSON_parse host text))
        (fun e => throw (CasperError
           ("Cannot read package file contents: " +:+ exn_str e))) in
    match version with
    | Some v => lift (parseVersion v)
    | None => throw (TypeError "undefined is not an object")
    end.

(** The installation of the patched require (lines 300-302). *)
Definition installRequire : M unit :=
  let! require := reads global_require in
  let! _ := modify (set_global___require (Some require)) in
  let! _ := modify (set_global_patchRequire true) in
  let! h := reads heap in
  match patchRequire h require with
  | Some (h', patched) =>
      let! _ := modify (set_heap h') in
      modify (set_global_require patched)
  | None => throw (TypeError "undefined is not an object")
  end.

(** From the version check to the parsing of the arguments
    (lines 91-305). *)
Definition prepare (host : Host) : M CasperArgs :=
  let! _ := checkVersion in
  let! _ := modify (update_phantom (set_ph_onError onPhantomError)) in
  let! _ := modify (fun w => set_fs (patchFs (fs w)) w) in
  let! _ := findCasperPath in
  let! root := reads (fun w => casperPath (phantom w)) in
  let! version := getCasperVersion host root in
  let! _ := modify (update_phantom (set_casperVersion (Some version))) in
  let! _ := installRequire in
  let! require := reads global_require in
  let! cli := call_loader require (VString "cli") in
  let! argv := reads (fun w => ph_args (phantom w)) in
  let! parsed := lift (cli_parse host cli argv) in
  let! _ := modify (update_phantom (set_casperArgs (Some parsed))) in
  ret parsed.

(** Everything the initialiser does before it raises the loaded flag
    (lines 91-309). *)
Definition initialise (host : Host) : M unit :=
  let! parsed := prepare host in
  if strict_eq (VBool true) (get_option parsed "cli")
  then initCasperCli else ret tt.

(** The execution of the passed script (lines 314-317). *)
Definition runScript (host : Host) : M unit :=
  let! script := reads (fun w => casperScript (phantom w)) in
  if truthy script then
    let! _ := modify (log_event (InjectJs script)) in
    if negb (injectJs host script) then
      __die (VString (concat (VString "Unable to load script ")
               (VString (concat script (VString "; check file syntax")))))
    else ret tt
  else ret tt.

(** The body of the initialiser. *)
Definition bootstrap (host : Host) : M unit :=
  let! loaded := reads (fun w => casperLoaded (phantom w)) in
  if truthy loaded then ret tt
  else
    let! _ := initialise host in
    let! _ := modify (update_phantom (set_casperLoaded (VBool true))) in
    runScript host.

(** ** A concrete environment

    A host in the style of PhantomJS 1.x, used to run the definitions: its
    [fs] module has none of the members [patchFs] supplies, files and
    directories are given by their paths, and module objects by a table. *)

Definition demo_absolute (wd : string) (path : value) : string :=
  match strip_prefix "/" (toStr path) with
  | Some _ => toStr path
  | None => wd +:+ "/" +:+ toStr path
  end.

Definition demo_fs (files dirs : list string) (wd : string) : FsModule :=
  {| exists_ := fun p => bool_decide (demo_absolute wd p ∈ files ++ dirs);
     isFile := fun p => bool_decide (demo_absolute wd p ∈ files);
     isDirectory := fun p => bool_decide (demo_absolute wd p ∈ dirs);
     absolute := demo_absolute wd;
     read := fun p => Returns (toStr p);
     separator := "/";
     workingDirectory := VString wd;
     basename := None;
     dirname := None;
     isWindows := None;
     joinPath := None;
     pathJoin := None |}.

Definition demo_require (modules : list (string * loc)) (path : value)
    : outcome loc :=
  match list_find (fun m => m.1 = toStr path) modules with
  | Some (_, (_, l)) => Returns l
  | None => Throws (Error "Error" ("Cannot find module " +:+ toStr path))
  end.

Definition demo_primitive (modules : list (string * loc)) : funobj :=
  {| fn_code := Native (demo_require modules);
     fn_cache := Some 2%positive;
     fn_extensions := Some 3%positive;
     fn_stubs := Some 4%positive;
     fn_patched := VUndefined |}.

(** A parser in the manner of the cli module: [--name=value] and [--flag]
    are options, everything else is a positional. *)
Fixpoint split_at_equals (s : string) : option (string * string) :=
  match s with
  | EmptyString => None
  | String c r =>
      if bool_decide (c = "="%char) then Some (EmptyString, r)
      else match split_at_equals r with
           | Some (k, v) => Some (String c k, v)
           | None => None
           end
  end.

Definition demo_parse_arg (ca : CasperArgs) (arg : string) : CasperArgs :=
  match strip_prefix "--" arg with
  | Some rest =>
      match split_at_equals rest with
      | Some (k, v) => set_option k (VString v) ca
      | None => set_option rest (VBool true) ca
      end
  | None => push_arg arg ca
  end.

Definition demo_parse (argv : option (list string)) : outcome CasperArgs :=
  match argv with
  | Some l => Returns (fold_left demo_parse_arg l {| options := ∅; args := [] |})
  | None => Throws (TypeError "undefined is not an object")
  end.

Definition demo_host : Host :=
  {| JSON_parse := fun _ => Returns (Some "1.1.0-DEV");
     cli_parse := fun _ => demo_parse;
     injectJs := fun _ => true |}.

Definition demo_phantom (root : value) (argv : option (list string)) : Phantom :=
  {| ph_args := argv;
     ph_version := {| pv_major := 1; pv_minor := 9; pv_patch := 2 |};
     ph_onError := HostHandler;
     casperLoaded := VUndefined;
     casperPath := root;
     casperVersion := None;
     casperArgs := None;
     casperScript := VUndefined;
     casperScriptBaseDir := VUndefined;
     casperTest := VUndefined;
     casperSelfTest := VUndefined |}.

Definition demo_world (files dirs : list string) (wd : string)
    (modules : list (string * loc)) (root : value)
    (argv : option (list string)) : World :=
  {| fs := demo_fs files dirs wd;
     heap := {[ 1%positive := demo_primitive modules ]};
     global_require := 1%positive;
     global___require := None;
     global_patchRequire := false;
     phantom := demo_phantom root argv;
     trace := [] |}.

(** The state in which the planner runs when the arguments [argv] come
    with an installation at /opt/casperjs. *)
Definition demo_cli_world (files : list string) (argv : list string) : World :=
  let w := demo_world files ["/opt/casperjs"] "/home/user" []
             (VString "/opt/casperjs") (Some argv) in
  set_fs (patchFs (fs w))
    (update_phantom (fun p =>
       set_casperVersion
         (Some {| major := 1; minor := 1; patch := 0; ident := "DEV" |})
         (set_casperArgs
            (match demo_parse (Some argv) with
             | Returns ca => Some ca
             | _ => None
             end) p)) w).

(** A state for module resolution: a builtin module, local candidates with
    and without extension, and the patched file-system module. *)
Definition demo_files : list string :=
  ["/opt/casperjs/modules/utils.js"; "/home/user/utils"; "/home/user/utils.js";
   "/home/user/lib"; "/home/user/lib.js"; "/home/user/only.js"].

Definition demo_module_world : World :=
  let w := demo_world demo_files ["/opt/casperjs"] "/home/user" []
             (VString "/opt/casperjs") (Some []) in
  set_fs (patchFs (fs w)) w.


(** ** Frames *)

(** [keeps f m]: running [m] leaves the component [f] of the state as it
    was, however [m] ends. *)
Definition keeps {X A} (f : World -> X) (m : M A) : Prop :=
  forall w, f (m w).2 = f w.

(** The loaded flag [phantom.casperLoaded]. *)
Definition loaded_flag (w : World) : value := casperLoaded (phantom w).

(** ** The error handler (lines 104-114)

    The function the initialiser installs as [phantom.onError];
    [defaultErrorHandler] is the host's [phantom.defaultErrorHandler] and
    [stack] the trace the host passes along. *)
Definition onPhantomError_call {T : Type}
    (defaultErrorHandler : string -> T -> M unit) (msg : string) (stack : T)
    : M unit :=
  let! _ := defaultErrorHandler msg stack in
  let! _ :=
    (if bool_decide (is_Some (strip_prefix
          "ReferenceError: Can't find variable: casper" msg))
     then modify (log_event (ConsoleError
            "Hint: you may want to use the `casperjs test` command."))
     else ret tt) in
  if bool_decide (is_Some (strip_prefix "SyntaxError: Parse error" msg))
  then __die VUndefined
  else ret tt.

(** ** More of the concrete environment *)

Definition set_ph_version (v : PhantomVersion) (p : Phantom) : Phantom :=
  {| ph_args := ph_args p; ph_version := v; ph_onError := ph_onError p;
     casperLoaded := casperLoaded p; casperPath := casperPath p;
     casperVersion := casperVersion p; casperArgs := casperArgs p;
     casperScript := casperScript p;
     casperScriptBaseDir := casperScriptBaseDir p;
     casperTest := casperTest p; casperSelfTest := casperSelfTest p |}.

(** An installation at /opt/casperjs with its package file and cli module,
    and a script in the working directory. *)
Definition demo_install_files : list string :=
  ["/opt/casperjs/package.json"; "/opt/casperjs/modules/cli.js";
   "/opt/casperjs/tests/run.js"; "/home/user/script.js"].

Definition demo_install_world (root : value) (argv : list string) : World :=
  demo_world demo_install_files ["/opt/casperjs"; "/opt/other"] "/home/user"
    [("/opt/casperjs/modules/cli.js", 9%positive)] root (Some argv).

(** Whether a string holds a line terminator, which [.] in a regular
    expression does not match. *)
Fixpoint has_line_terminator (s : string) : bool :=
  match s with
  | EmptyString => false
  | String c r => is_line_terminator c || has_line_terminator r
  end.

(** Whether the character [c] occurs in a string. *)
Fixpoint has_char (c : ascii) (s : string) : bool :=
  match s with
  | EmptyString => false
  | String a r => bool_decide (a = c) || has_char c r
  end.

(** ** The effect of planning on the streams

    [planner_effect w r]: the run [r] from the state [w] left the
    file-system module alone and wrote nothing, unless the process exited,
    and then it wrote one line: on the standard stream with exit code 0 or
    on the error stream with exit code 1. *)
Definition planner_effect {A} (w : World) (r : outcome A * World) : Prop :=
  fs r.2 = fs w /\
  match r.1 with
  | Exits c =>
      exists msg,
        (c = 0 /\ trace r.2 = trace w ++ [ConsoleLog msg]) \/
        (c = 1 /\ trace r.2 = trace w ++ [ConsoleError msg])
  | _ => trace r.2 = trace w
  end.

(** [disciplined m]: [m] has that effect wherever [fs.read] does not end
    the process. *)
Definition disciplined {A} (m : M A) : Prop :=
  forall w, (forall p c, read (fs w) p <> Exits c) -> planner_effect w (m w).

(** * Properties *)

(** ** The definitions at work *)

Example cut_last_slash_nested : cut_last_slash "/r/tests/run.js" = "/r/tests".
Proof. reflexivity. Qed.

Example cut_last_slash_bare : cut_last_slash "run.js" = "run.js".
Proof. reflexivity. Qed.

Example split_version : split "." "1.0.0-beta" = ["1"; "0"; "0-beta"].
Proof. reflexivity. Qed.

Example split_empty : split "." "" = [""].
Proof. reflexivity. Qed.

Example split_keeps_empty_pieces : split "." "a..b." = ["a"; ""; "b"; ""].
Proof. reflexivity. Qed.

Example double_tilde_samples :
  map Num.double_tilde ["1"; "a"; ""; " 12 "; "0x10"; "1e3"; "-5"; "1.9";
                        "4294967297"; "2147483648"; "Infinity"; "12px"]
  = [1; 0; 0; 12; 16; 1000; -5; 1; 1; -2147483648; 0; 0].
Proof. vm_compute. reflexivity. Qed.

Example basename_polyfill_samples :
  map basename_polyfill [VString "a/b/c.js"; VString "c.js"; VString "/x";
                         VString "a/"; VUndefined]
  = [Returns "c.js"; Returns "c.js"; Returns "x"; Returns "";
     Throws (TypeError "undefined is not a function")].
Proof. reflexivity. Qed.

Example isWindows_polyfill_samples :
  map (isWindows_polyfill (VString "/home/user"))
    [[VString "C:\Users"]; [VString "\\host\share"]; [VString "/usr"]; []]
  = [Returns true; Returns true; Returns false; Returns false].
Proof. reflexivity. Qed.

Example dirname_polyfill_samples :
  map dirname_polyfill [VString "a/b.js"; VString "b.js"; VString "/b.js";
                        VString "c:\d\e.js"; VString ""; VUndefined]
  = [VString "a"; VString "b.js"; VString ""; VString "c:/d"; VUndefined;
     VUndefined].
Proof. reflexivity. Qed.

(** ** Module resolution *)

Lemma truthy_VString (s : string) : truthy (VString s) = true <-> s <> "".
Proof.
  unfold truthy. destruct (decide (s = "")) as [->|Hne].
  - simpl. split; [discriminate | congruence].
  - rewrite bool_decide_eq_false_2 by assumption. simpl. tauto.
Qed.

(** The path [pathJoin_polyfill] builds for a builtin module is never the
    empty string. *)
Lemma builtin_path_polyfill_nonempty (sep : string) (root : value) (n : string) :
  pathJoin_polyfill sep [root; VString "modules"; VString (n +:+ ".js")] <> "".
Proof.
  unfold pathJoin_polyfill. simpl.
  destruct (join_str root); simpl; [|discriminate].
  destruct sep; simpl; discriminate.
Qed.

Lemma casperBuiltinPath_found (w : World) (n : value) pj :
  pathJoin (fs w) = Some pj ->
  isFile (fs w) (VString (pj [casperPath (phantom w); VString "modules";
                              VString (concat n (VString ".js"))])) = true ->
  casperBuiltinPath w n =
    Returns (VString (pj [casperPath (phantom w); VString "modules";
                          VString (concat n (VString ".js"))])).
Proof.
  intros Hpj Hfile. unfold casperBuiltinPath.
  rewrite Hpj. simpl. rewrite Hfile. reflexivity.
Qed.

Lemma casperBuiltinPath_missing (w : World) (n : value) pj :
  pathJoin (fs w) = Some pj ->
  isFile (fs w) (VString (pj [casperPath (phantom w); VString "modules";
                              VString (concat n (VString ".js"))])) = false ->
  casperBuiltinPath w n = Returns VUndefined.
Proof.
  intros Hpj Hfile. unfold casperBuiltinPath.
  rewrite Hpj. simpl. rewrite Hfile. reflexivity.
Qed.

(** [localModulePath] returns the last of the two candidates that is a
    file, and [undefined] when neither is. *)
Lemma localModulePath_last_existing (w : World) (n : value) pj :
  pathJoin (fs w) = Some pj ->
  let baseDir :=
    or_else (casperScriptBaseDir (phantom w)) (workingDirectory (fs w)) in
  let bare := VString (absolute (fs w) (VString (pj [baseDir; n]))) in
  let js := VString (absolute (fs w)
              (VString (pj [baseDir; VString (concat n (VString ".js"))]))) in
  localModulePath w n =
    Returns (if isFile (fs w) js then js
             else if isFile (fs w) bare then bare
             else VUndefined).
Proof.
  intros Hpj baseDir bare js. unfold localModulePath.
  rewrite Hpj. simpl. fold baseDir. fold bare. fold js.
  destruct (isFile (fs w) bare), (isFile (fs w) js); reflexivity.
Qed.


Lemma patchedRequire_builtin (w : World) (require : value -> outcome loc)
    (n : string) (pj : list value -> string) :
  pathJoin (fs w) = Some pj ->
  let absPath :=
    pj [casperPath (phantom w); VString "modules"; VString (n +:+ ".js")] in
  isFile (fs w) (VString absPath) = true ->
  absPath <> "" ->
  patchedRequire w require (VString n) = require (VString absPath).
Proof.
  intros Hpj absPath Hfile Hne.
  unfold patchedRequire.
  erewrite casperBuiltinPath_found; [| exact Hpj | exact Hfile].
  cbn [obind]. change (concat (VString n) (VString ".js")) with (n +:+ ".js").
  fold absPath.
  apply truthy_VString in Hne. rewrite Hne. reflexivity.
Qed.

(** C1: when the builtin file [<casperPath>/modules/<n>.js] is a file,
    [patchedRequire n] is the primitive loader's result for that path,
    whatever the script base directory [base] and the working directory
    [wd] are and whatever local candidates exist.  The builtin path is a
    non-empty string, which is always so with the [pathJoin] of [patchFs]. *)
Theorem builtin_module_wins (w : World) (require : value -> outcome loc)
    (n : string) (pj : list value -> string) (base wd : value) :
  pathJoin (fs w) = Some pj ->
  let absPath :=
    pj [casperPath (phantom w); VString "modules"; VString (n +:+ ".js")] in
  isFile (fs w) (VString absPath) = true ->
  absPath <> "" \/ (exists sep, pj = pathJoin_polyfill sep) ->
  patchedRequire
    (set_fs (set_workingDirectory wd (fs w))
       (update_phantom (set_casperScriptBaseDir base) w))
    require (VString n)
  = require (VString absPath).
Proof.
  intros Hpj absPath Hfile Hpath.
  assert (Hne : absPath <> "").
  { destruct Hpath as [Hne | [sep ->]]; [exact Hne|].
    apply builtin_path_polyfill_nonempty. }
  exact (patchedRequire_builtin
           (set_fs (set_workingDirectory wd (fs w))
              (update_phantom (set_casperScriptBaseDir base) w))
           require n pj Hpj Hfile Hne).
Qed.

Lemma builtin_module_wins_witness :
  patchedRequire
    (set_fs (set_workingDirectory (VString "/tmp") (fs demo_module_world))
       (update_phantom (set_casperScriptBaseDir (VString "/home/user"))
          demo_module_world))
    (demo_require [("/opt/casperjs/modules/utils.js", 7%positive);
                   ("/home/user/utils.js", 8%positive)])
    (VString "utils")
  = Returns 7%positive.
Proof.
  rewrite (builtin_module_wins demo_module_world _ "utils"
             (pathJoin_polyfill "/") (VString "/home/user") (VString "/tmp")).
  - reflexivity.
  - reflexivity.
  - vm_compute. reflexivity.
  - right. exists "/". reflexivity.
Defined.

(** C3, as stated, fails: with no builtin file and both [/home/user/lib]
    and [/home/user/lib.js] present, the candidate with the extension is
    the one selected and loaded. *)
Lemma local_bare_candidate_not_selected :
  let w := demo_module_world in
  let require := demo_require [("/home/user/lib", 5%positive);
                               ("/home/user/lib.js", 6%positive)] in
  isFile (fs w) (VString "/opt/casperjs/modules/lib.js") = false /\
  isFile (fs w) (VString "/home/user/lib") = true /\
  isFile (fs w) (VString "/home/user/lib.js") = true /\
  localModulePath w (VString "lib") = Returns (VString "/home/user/lib.js") /\
  patchedRequire w require (VString "lib") = require (VString "/home/user/lib.js") /\
  patchedRequire w require (VString "lib") <> require (VString "/home/user/lib").
Proof.
  vm_compute. repeat split; discriminate.
Qed.

(** C3, amended: with no builtin file and both local candidates present,
    resolution selects the candidate [<baseDir>/<n>.js]: the existing
    candidates are collected in the order bare name, name with extension,
    and the last one is taken. *)
Theorem local_js_candidate_wins (w : World) (require : value -> outcome loc)
    (n : string) (pj : list value -> string) :
  pathJoin (fs w) = Some pj ->
  let baseDir :=
    or_else (casperScriptBaseDir (phantom w)) (workingDirectory (fs w)) in
  let builtin :=
    pj [casperPath (phantom w); VString "modules"; VString (n +:+ ".js")] in
  let bare := absolute (fs w) (VString (pj [baseDir; VString n])) in
  let js := absolute (fs w) (VString (pj [baseDir; VString (n +:+ ".js")])) in
  isFile (fs w) (VString builtin) = false ->
  isFile (fs w) (VString bare) = true ->
  isFile (fs w) (VString js) = true ->
  localModulePath w (VString n) = Returns (VString js) /\
  (js <> "" -> patchedRequire w require (VString n) = require (VString js)).
Proof.
  intros Hpj baseDir builtin bare js Hbuiltin Hbare Hjs.
  assert (Hlocal : localModulePath w (VString n) = Returns (VString js)).
  { rewrite (localModulePath_last_existing w (VString n) pj Hpj).
    change (concat (VString n) (VString ".js")) with (n +:+ ".js").
    fold baseDir. fold js. rewrite Hjs. reflexivity. }
  split; [exact Hlocal|].
  intros Hne. unfold patchedRequire.
  rewrite (casperBuiltinPath_missing w (VString n) pj Hpj Hbuiltin).
  cbn [obind truthy]. rewrite Hlocal. cbn [obind].
  apply truthy_VString in Hne. rewrite Hne. reflexivity.
Qed.

Lemma local_js_candidate_wins_witness :
  localModulePath demo_module_world (VString "lib")
    = Returns (VString "/home/user/lib.js") /\
  patchedRequire demo_module_world
    (demo_require [("/home/user/lib", 5%positive);
                   ("/home/user/lib.js", 6%positive)]) (VString "lib")
    = Returns 6%positive.
Proof.
  destruct (local_js_candidate_wins demo_module_world
              (demo_require [("/home/user/lib", 5%positive);
                             ("/home/user/lib.js", 6%positive)])
              "lib" (pathJoin_polyfill "/")) as [Hlocal Hload].
  - reflexivity.
  - vm_compute. reflexivity.
  - vm_compute. reflexivity.
  - vm_compute. reflexivity.
  - split.
    + exact Hlocal.
    + rewrite Hload.
      * vm_compute. reflexivity.
      * vm_compute. discriminate.
Defined.

(** C4: when neither the builtin candidate nor a local candidate is a file
    and the primitive loader throws on [n], [patchedRequire n] throws a
    CasperError whose message carries [n], whatever the primitive threw. *)
Theorem missing_module_throws_CasperError (w : World)
    (require : value -> outcome loc) (n : string) (pj : list value -> string)
    (e : exn) :
  pathJoin (fs w) = Some pj ->
  let baseDir :=
    or_else (casperScriptBaseDir (phantom w)) (workingDirectory (fs w)) in
  let builtin :=
    pj [casperPath (phantom w); VString "modules"; VString (n +:+ ".js")] in
  let bare := absolute (fs w) (VString (pj [baseDir; VString n])) in
  let js := absolute (fs w) (VString (pj [baseDir; VString (n +:+ ".js")])) in
  isFile (fs w) (VString builtin) = false ->
  isFile (fs w) (VString bare) = false ->
  isFile (fs w) (VString js) = false ->
  require (VString n) = Throws e ->
  patchedRequire w require (VString n)
    = Throws (CasperError ("Can't find module " +:+ n)).
Proof.
  intros Hpj baseDir builtin bare js Hbuiltin Hbare Hjs Hthrow.
  unfold patchedRequire.
  rewrite (casperBuiltinPath_missing w (VString n) pj Hpj Hbuiltin).
  cbn [obind truthy].
  rewrite (localModulePath_last_existing w (VString n) pj Hpj).
  change (concat (VString n) (VString ".js")) with (n +:+ ".js").
  fold baseDir. fold js. fold bare. rewrite Hjs, Hbare.
  cbn [obind truthy]. rewrite Hthrow. reflexivity.
Qed.

Lemma missing_module_throws_CasperError_witness :
  patchedRequire demo_module_world (demo_require []) (VString "nowhere")
    = Throws (CasperError "Can't find module nowhere").
Proof.
  apply (missing_module_throws_CasperError demo_module_world (demo_require [])
           "nowhere" (pathJoin_polyfill "/")
           (Error "Error" "Cannot find module nowhere")).
  - reflexivity.
  - vm_compute. reflexivity.
  - vm_compute. reflexivity.
  - vm_compute. reflexivity.
  - reflexivity.
Defined.

(** ** Installation of the patched require *)

(** C2: [patchRequire] returns a loader already marked as patched as it is;
    for an unpatched loader it returns a new function object that carries
    the same [cache], [extensions] and [stubs] references, is marked
    patched and wraps the loader's code, and leaves the loader itself as it
    was; patching the result again returns that same object and heap. *)
Theorem patchRequire_idempotent (h : gmap loc funobj) (r : loc) (o : funobj) :
  h !! r = Some o ->
  (truthy (fn_patched o) = true -> patchRequire h r = Some (h, r)) /\
  (truthy (fn_patched o) = false ->
   exists h' p o',
     patchRequire h r = Some (h', p) /\
     (p ∉ dom h) /\
     h' !! p = Some o' /\
     fn_cache o' = fn_cache o /\
     fn_extensions o' = fn_extensions o /\
     fn_stubs o' = fn_stubs o /\
     fn_patched o' = VBool true /\
     fn_code o' = PatchedRequire (fn_code o) /\
     h' !! r = Some o /\
     patchRequire h' p = Some (h', p)).
Proof.
  intros Hr. unfold patchRequire. rewrite Hr. split; intros Hp; rewrite Hp.
  - reflexivity.
  - pose proof (is_fresh (dom h)) as Hfresh.
    set (p := fresh (dom h)) in *.
    assert (Hne : p <> r).
    { intros ->. apply Hfresh. apply elem_of_dom. eauto. }
    eexists _, p, _. split; [reflexivity|].
    split; [exact Hfresh|].
    split; [apply lookup_insert_eq|].
    repeat (split; [reflexivity|]).
    split.
    + rewrite lookup_insert_ne by exact Hne. exact Hr.
    + rewrite lookup_insert_eq. reflexivity.
Qed.

Lemma patchRequire_idempotent_witness :
  exists h' p,
    patchRequire {[ 1%positive := demo_primitive [] ]} 1%positive = Some (h', p) /\
    patchRequire h' p = Some (h', p).
Proof.
  destruct (patchRequire_idempotent {[ 1%positive := demo_primitive [] ]}
              1%positive (demo_primitive [])) as [_ Hfresh].
  - vm_compute. reflexivity.
  - destruct Hfresh as (h' & p & o' & H1 & _ & _ & _ & _ & _ & _ & _ & _ & H2).
    + reflexivity.
    + exists h', p. split; assumption.
Defined.

(** ** Version parsing *)

Lemma parseVersion_parts (version : string) (p0 p1 p2 : string)
    (rest : list string) :
  split "." (trim version) = p0 :: p1 :: p2 :: rest ->
  parseVersion version =
    Returns {| major := or_zero (Num.double_tilde p0);
               minor := or_zero (Num.double_tilde p1);
               patch := or_zero (Num.double_tilde
                          (toStr (nth_string (split "-" p2) 0)));
               ident := toStr (or_else (nth_string (split "-" p2) 1)
                                 (VString "")) |}.
Proof.
  intros Hparts. unfold parseVersion. rewrite Hparts.
  replace (Z.of_nat (length (p0 :: p1 :: p2 :: rest)) <? 3) with false.
  - reflexivity.
  - symmetry. apply Z.ltb_ge. cbn [length]. lia.
Qed.

Lemma double_tilde_NaN (s : string) :
  Num.ToNumber s = Num.NaN -> or_zero (Num.double_tilde s) = 0.
Proof. unfold Num.double_tilde. intros ->. reflexivity. Qed.

(** C10: [parseVersion] throws "Invalid version number" exactly when the
    trimmed version splits on "." into fewer than three parts; with at least
    three parts it returns, and a major, minor or patch component that is not
    a numeric literal is read as 0; "a.b.c" parses as 0, 0, 0 with an empty
    ident. *)
Theorem parseVersion_invalid_iff (version : string) :
  let parts := split "." (trim version) in
  (parseVersion version = Throws (CasperError "Invalid version number")
   <-> (length parts < 3)%nat) /\
  ((3 <= length parts)%nat ->
   exists v, parseVersion version = Returns v /\
     (forall p, parts !! 0%nat = Some p ->
        Num.ToNumber p = Num.NaN -> major v = 0) /\
     (forall p, parts !! 1%nat = Some p ->
        Num.ToNumber p = Num.NaN -> minor v = 0) /\
     (forall p q, parts !! 2%nat = Some p -> split "-" p !! 0%nat = Some q ->
        Num.ToNumber q = Num.NaN -> patch v = 0)) /\
  parseVersion "a.b.c"
    = Returns {| major := 0; minor := 0; patch := 0; ident := "" |}.
Proof.
  intros parts. split; [|split].
  - unfold parseVersion. fold parts.
    destruct (Z.of_nat (length parts) <? 3) eqn:Hlen.
    + apply Z.ltb_lt in Hlen. split; [lia | reflexivity].
    + apply Z.ltb_ge in Hlen. split; [discriminate | lia].
  - intros Hlen.
    destruct parts as [|p0 [|p1 [|p2 rest]]] eqn:Hparts;
      cbn [length] in Hlen; try lia.
    eexists. split; [apply (parseVersion_parts _ _ _ _ _ Hparts)|].
    cbn [major minor patch]. repeat split.
    + intros p [= <-]. apply double_tilde_NaN.
    + intros p [= <-]. apply double_tilde_NaN.
    + intros p q [= <-] Hq. unfold nth_string. rewrite Hq. cbn [toStr].
      apply double_tilde_NaN.
  - vm_compute. reflexivity.
Qed.

Lemma parseVersion_invalid_iff_witness :
  parseVersion "1.2" = Throws (CasperError "Invalid version number") /\
  exists v, parseVersion "1.x.y-rc1" = Returns v /\ minor v = 0 /\ patch v = 0.
Proof.
  split.
  - apply (parseVersion_invalid_iff "1.2"). vm_compute. lia.
  - destruct (parseVersion_invalid_iff "1.x.y-rc1") as (_ & Hsome & _).
    destruct Hsome as (v & Hv & _ & Hminor & Hpatch).
    + vm_compute. lia.
    + exists v. split; [exact Hv|]. split.
      * apply (Hminor "x"); reflexivity.
      * apply (Hpatch "y-rc1" "y"); reflexivity.
Defined.

(** ** The command line planner *)

Lemma bind_Returns {A B} (m : M A) (k : A -> M B) (w w' : World) (a : A) :
  m w = (Returns a, w') -> bind m k w = k a w'.
Proof. intros H. unfold bind. rewrite H. reflexivity. Qed.

Lemma bind_Exits {A B} (m : M A) (k : A -> M B) (w w' : World) (c : Z) :
  m w = (Exits c, w') -> bind m k w = (Exits c, w').
Proof. intros H. unfold bind. rewrite H. reflexivity. Qed.

Lemma bind_Throws {A B} (m : M A) (k : A -> M B) (w w' : World) (e : exn) :
  m w = (Throws e, w') -> bind m k w = (Throws e, w').
Proof. intros H. unfold bind. rewrite H. reflexivity. Qed.

(** C5, amended: when [options.version] is falsy and the first positional
    is "selftest", the table sets the target script to the absolute
    [<casperPath>/tests/run.js], sets [casperTest] and [casperSelfTest],
    sets [options.includes] to [<casperPath>/tests/selftest.js], appends
    [<casperPath>/tests/suites] when there are fewer than two positionals,
    drops "selftest", and sets the base directory to the directory of: the
    second remaining positional when there is one, the directory of the run
    script otherwise.  Planning then continues after the table. *)
Theorem selftest_plan (w : World) (ca : CasperArgs)
    (pj : list value -> string) (dn : value -> value) :
  pathJoin (fs w) = Some pj ->
  dirname (fs w) = Some dn ->
  casperArgs (phantom w) = Some ca ->
  truthy (get_option ca "version") = false ->
  get_arg ca 0 = VString "selftest" ->
  let baseTestsPath := pj [casperPath (phantom w); VString "tests"] in
  let script :=
    absolute (fs w) (VString (pj [VString baseTestsPath; VString "run.js"])) in
  let includes := pj [VString baseTestsPath; VString "selftest.js"] in
  let suites := pj [VString baseTestsPath; VString "suites"] in
  let pushed :=
    if (length (args ca) <=? 1)%nat then args ca ++ [suites] else args ca in
  let remaining :=
    List.filter (fun a => negb (strict_eq (VString a) (VString "selftest")))
      pushed in
  let second := nth_string remaining 1 in
  let baseDir := dn (if truthy second then second else dn (VString script)) in
  let w' :=
    update_phantom (fun p =>
      set_casperScriptBaseDir baseDir
        (set_casperArgs
           (Some {| options := <["includes" := VString includes]> (options ca);
                    args := remaining |})
           (set_casperSelfTest (VBool true)
              (set_casperTest (VBool true)
                 (set_casperScript (VString script) p))))) w in
  cliTable w = (Returns tt, w') /\ initCasperCli w = cliLaunch w'.
Proof.
  intros Hpj Hdn Hca Hversion Hfirst.
  intros baseTestsPath script includes suites pushed remaining second baseDir w'.
  assert (Htable : cliTable w = (Returns tt, w')).
  { subst w' baseDir second remaining pushed suites includes script
      baseTestsPath.
    unfold cliTable, bind, reads, fs_pathJoin, the_casperArgs,
      fs_absolute, fs_dirname, update_args, modify, ret.
    repeat (cbn; rewrite ?Hpj, ?Hdn, ?Hca, ?Hversion, ?Hfirst).
    replace (strict_eq (VString "selftest") (VString "test")) with false
      by reflexivity.
    replace (strict_eq (VString "selftest") (VString "selftest")) with true
      by reflexivity.
    repeat (cbn; rewrite ?Hpj, ?Hdn, ?Hca, ?Hversion, ?Hfirst).
    destruct (length (args ca) <=? 1)%nat;
      repeat (cbn; rewrite ?Hpj, ?Hdn, ?Hca);
      unfold get_arg; cbn;
      match goal with
      | |- context [truthy ?v] => destruct (truthy v)
      end;
      repeat (cbn; rewrite ?Hpj, ?Hdn, ?Hca);
      unfold update_phantom; cbn; rewrite ?Hca; reflexivity. }
  split; [exact Htable|].
  unfold initCasperCli. rewrite (bind_Returns _ _ _ _ _ Htable). reflexivity.
Qed.

Lemma selftest_plan_witness :
  let w := demo_cli_world ["/opt/casperjs/tests/run.js"] ["selftest"] in
  exists w', cliTable w = (Returns tt, w') /\
    casperScript (phantom w') = VString "/opt/casperjs/tests/run.js" /\
    casperTest (phantom w') = VBool true /\
    casperSelfTest (phantom w') = VBool true /\
    (args <$> casperArgs (phantom w')) = Some ["/opt/casperjs/tests/suites"] /\
    casperScriptBaseDir (phantom w') = VString "/opt/casperjs".
Proof.
  intros w.
  destruct (selftest_plan w {| options := ∅; args := ["selftest"] |}
              (pathJoin_polyfill "/") dirname_polyfill) as [Htable _].
  - reflexivity.
  - reflexivity.
  - reflexivity.
  - reflexivity.
  - reflexivity.
  - eexists. split; [exact Htable|]. vm_compute. repeat split.
Defined.

(** C5, as stated, fails: for the arguments [selftest] alone the second
    remaining positional is absent, yet the base directory planning leaves
    is not the directory of the run script but the directory above it. *)
Lemma selftest_base_dir_not_script_dir :
  let w := demo_cli_world ["/opt/casperjs/tests/run.js"] ["selftest"] in
  exists w' ca',
    initCasperCli w = (Returns tt, w') /\
    casperArgs (phantom w') = Some ca' /\
    get_arg ca' 1 = VUndefined /\
    casperScript (phantom w') = VString "/opt/casperjs/tests/run.js" /\
    dirname_polyfill (casperScript (phantom w')) = VString "/opt/casperjs/tests" /\
    casperScriptBaseDir (phantom w') = VString "/opt/casperjs" /\
    casperScriptBaseDir (phantom w') <> dirname_polyfill (casperScript (phantom w')).
Proof.
  intros w. eexists _, _. split; [vm_compute; reflexivity|].
  vm_compute. repeat split. discriminate.
Qed.

(** The version row of the table comes first: with [--version] the
    selftest row is never reached. *)
Lemma version_row_precedes_selftest :
  let w := demo_cli_world ["/opt/casperjs/tests/run.js"]
             ["selftest"; "--version"] in
  exists w', initCasperCli w = (Exits 0, w') /\
    trace w' = [ConsoleLog "1.1.0-DEV"] /\
    casperScript (phantom w') = VUndefined /\
    casperTest (phantom w') = VUndefined.
Proof.
  intros w. eexists. split; [vm_compute; reflexivity|].
  vm_compute. repeat split.
Qed.

(** The test row: the run script is the target, "test" is dropped and
    the base directory is the directory of the next positional. *)
Example test_row_plan :
  let w := demo_cli_world ["/opt/casperjs/tests/run.js"]
             ["test"; "suite/a.js"; "--foo"] in
  (initCasperCli w).1 = Returns tt /\
  casperScript (phantom (initCasperCli w).2)
    = VString "/opt/casperjs/tests/run.js" /\
  casperTest (phantom (initCasperCli w).2) = VBool true /\
  casperScriptBaseDir (phantom (initCasperCli w).2) = VString "suite" /\
  (args <$> casperArgs (phantom (initCasperCli w).2)) = Some ["suite/a.js"].
Proof. vm_compute. repeat split. Qed.

(** Without positionals the help is printed and the process exits with
    code 0. *)
Example help_row_plan :
  let w := demo_cli_world [] [] in
  (initCasperCli w).1 = Exits 0 /\
  exists text, trace (initCasperCli w).2 = [ConsoleLog text].
Proof. vm_compute. split; [reflexivity | eexists; reflexivity]. Qed.

Lemma die_message_truthy (s : string) :
  truthy (VString (concat (VString "Unable to open file: ") (VString s))) = true.
Proof. reflexivity. Qed.

(** What [cliLaunch] does when the target script is not a file. *)
Lemma cliLaunch_missing (w : World) (ca : CasperArgs) :
  casperArgs (phantom w) = Some ca ->
  let script :=
    if truthy (casperScript (phantom w)) then casperScript (phantom w)
    else get_arg ca 0 in
  isFile (fs w) script = false ->
  cliLaunch w =
    (Exits 1,
     log_event (ConsoleError ("Unable to open file: " +:+ toStr script))
       (if truthy (casperScript (phantom w)) then w
        else update_phantom (set_casperScript script) w)).
Proof.
  intros Hca script Hfile. subst script.
  unfold cliLaunch, bind, reads, the_casperArgs, fs_isFile, modify, ret,
    __die, phantom_exit, lift.
  destruct (truthy (casperScript (phantom w))) eqn:Hscript;
    repeat (cbn; rewrite ?Hca, ?Hfile); reflexivity.
Qed.

(** A process exit during initialisation ends the initialiser in the state
    of the exit. *)
Lemma bootstrap_exits_in_planner (host : Host) (w0 w w2 : World)
    (parsed : CasperArgs) (c : Z) :
  truthy (casperLoaded (phantom w0)) = false ->
  prepare host w0 = (Returns parsed, w) ->
  get_option parsed "cli" = VBool true ->
  initCasperCli w = (Exits c, w2) ->
  bootstrap host w0 = (Exits c, w2).
Proof.
  intros Hloaded Hprepare Hcli Hplan.
  unfold bootstrap, bind at 1, reads. cbn. rewrite Hloaded.
  apply bind_Exits. unfold initialise.
  rewrite (bind_Returns _ _ _ _ _ Hprepare). rewrite Hcli. exact Hplan.
Qed.

(** C6: when planning reaches the check after the table and the target
    script is not a file, the planner prints "Unable to open file: <path>"
    on the error stream and the process exits with code 1; the positionals
    are left as they were (no final drop), and the initialiser ends there:
    the diagnostic is the last event and the loaders are left as they were
    at the check. *)
Theorem missing_script_is_fatal (w w1 : World) (ca1 : CasperArgs) :
  cliTable w = (Returns tt, w1) ->
  casperArgs (phantom w1) = Some ca1 ->
  let script :=
    if truthy (casperScript (phantom w1)) then casperScript (phantom w1)
    else get_arg ca1 0 in
  isFile (fs w1) script = false ->
  exists w2,
    initCasperCli w = (Exits 1, w2) /\
    trace w2 = trace w1 ++ [ConsoleError ("Unable to open file: " +:+ toStr script)] /\
    casperArgs (phantom w2) = Some ca1 /\
    heap w2 = heap w1 /\
    global_require w2 = global_require w1 /\
    casperLoaded (phantom w2) = casperLoaded (phantom w1) /\
    forall (host : Host) (w0 : World) (parsed : CasperArgs),
      truthy (casperLoaded (phantom w0)) = false ->
      prepare host w0 = (Returns parsed, w) ->
      get_option parsed "cli" = VBool true ->
      bootstrap host w0 = (Exits 1, w2).
Proof.
  intros Htable Hca script Hfile.
  pose proof (cliLaunch_missing w1 ca1 Hca Hfile) as Hlaunch.
  fold script in Hlaunch.
  assert (Hplan : initCasperCli w = cliLaunch w1).
  { unfold initCasperCli. rewrite (bind_Returns _ _ _ _ _ Htable). reflexivity. }
  rewrite Hlaunch in Hplan.
  eexists. split; [exact Hplan|].
  destruct (truthy (casperScript (phantom w1))); cbn;
    (repeat split; try assumption; try reflexivity);
    intros host w0 parsed Hloaded Hprepare Hcli;
    exact (bootstrap_exits_in_planner host w0 w _ parsed 1 Hloaded Hprepare
             Hcli Hplan).
Qed.

Lemma missing_script_is_fatal_witness :
  let w := demo_cli_world [] ["missing.js"; "--flag"] in
  exists w2,
    initCasperCli w = (Exits 1, w2) /\
    trace w2 = [ConsoleError "Unable to open file: missing.js"] /\
    (args <$> casperArgs (phantom w2)) = Some ["missing.js"].
Proof.
  intros w.
  destruct (missing_script_is_fatal w w
              {| options := {[ "flag" := VBool true ]}; args := ["missing.js"] |})
    as (w2 & Hplan & Htrace & Hargs & _).
  - vm_compute. reflexivity.
  - vm_compute. reflexivity.
  - vm_compute. reflexivity.
  - exists w2. split; [exact Hplan|]. split; [exact Htrace|].
    rewrite Hargs. reflexivity.
Defined.

(** What [cliLaunch] does when the target script is a file. *)
Lemma cliLaunch_found (w : World) (ca : CasperArgs) (dn : value -> value) :
  dirname (fs w) = Some dn ->
  casperArgs (phantom w) = Some ca ->
  let script :=
    if truthy (casperScript (phantom w)) then casperScript (phantom w)
    else get_arg ca 0 in
  let scriptDir :=
    if strict_eq (dn script) script then VString "." else dn script in
  let baseDir :=
    if truthy (casperScriptBaseDir (phantom w))
    then casperScriptBaseDir (phantom w)
    else VString (absolute (fs w) scriptDir) in
  isFile (fs w) script = true ->
  cliLaunch w =
    (Returns tt,
     update_phantom (fun p =>
       set_casperArgs (Some (drop script ca))
         (set_casperScriptBaseDir baseDir (set_casperScript script p))) w).
Proof.
  intros Hdn Hca script scriptDir baseDir Hfile.
  subst baseDir scriptDir script.
  unfold cliLaunch, bind, reads, the_casperArgs, fs_isFile, fs_dirname,
    fs_absolute, update_args, modify, ret.
  destruct w as [wfs wheap wreq w__req wpatch
                   [pargs pversion perr ploaded ppath pcv pca pscript pbase
                      ptest pselftest] wtrace].
  cbn in *. subst.
  destruct (truthy pscript) eqn:Hscript;
    repeat (cbn; rewrite ?Hfile, ?Hdn, ?Hscript);
    destruct (truthy pbase) eqn:Hbase;
    repeat (cbn; rewrite ?Hfile, ?Hdn, ?Hscript, ?Hbase); reflexivity.
Qed.

Lemma length_backslashes_to_slashes (s : string) :
  String.length (backslashes_to_slashes s) = String.length s.
Proof. induction s as [|c r IH]; cbn; [reflexivity | now rewrite IH]. Qed.

Lemma cut_last_slash_shorter (s : string) :
  has_slash s = true ->
  (String.length (cut_last_slash s) < String.length s)%nat.
Proof.
  induction s as [|c r IH]; cbn; [discriminate|].
  destruct (has_slash r).
  - intros _. cbn. specialize (IH eq_refl). lia.
  - rewrite orb_false_r. intros ->. cbn. lia.
Qed.

Lemma cut_last_slash_no_slash (s : string) :
  has_slash s = false -> cut_last_slash s = s.
Proof.
  destruct s as [|c r]; cbn; [reflexivity|].
  intros H. apply orb_false_iff in H as [-> ->]. reflexivity.
Qed.

Lemma backslashes_to_slashes_fixed (s : string) :
  backslashes_to_slashes s = s <-> has_backslash s = false.
Proof.
  induction s as [|c r IH]; cbn; [tauto|].
  unfold is_backslash. destruct (decide (c = "\"%char)) as [->|Hne].
  - cbn. split; [intros [=] | discriminate].
  - rewrite bool_decide_eq_false_2 by assumption. cbn.
    rewrite <- IH. split; [intros [=]; assumption | intros ->; reflexivity].
Qed.

(** [dirname_polyfill] returns its argument exactly on the non-empty strings
    without a slash or a backslash. *)
Lemma dirname_polyfill_fixed (s : string) :
  dirname_polyfill (VString s) = VString s <->
  s <> "" /\ has_slash s = false /\ has_backslash s = false.
Proof.
  unfold dirname_polyfill. cbn [truthy toStr].
  destruct (decide (s = "")) as [->|Hne].
  - cbn. split; [discriminate | intros [H _]; congruence].
  - rewrite bool_decide_eq_false_2 by assumption. cbn [negb].
    split.
    + intros [= Hcut]. split; [assumption|].
      destruct (has_slash (backslashes_to_slashes s)) eqn:Hslash.
      * apply cut_last_slash_shorter in Hslash.
        rewrite Hcut, length_backslashes_to_slashes in Hslash. lia.
      * rewrite cut_last_slash_no_slash in Hcut by assumption.
        split; [congruence|]. apply backslashes_to_slashes_fixed, Hcut.
    + intros (_ & Hslash & Hback).
      apply backslashes_to_slashes_fixed in Hback. rewrite Hback.
      rewrite cut_last_slash_no_slash by assumption. reflexivity.
Qed.

(** C8: when the table leaves no base directory and the target script is a
    file, the planner sets the base directory to the absolute form of the
    script's directory, with "." in place of the directory exactly when
    [dirname] returns the script path itself; with the [dirname] of
    [patchFs] that is the case exactly for a non-empty path without a
    slash or backslash. *)
Theorem base_dir_from_script (w w1 : World) (ca1 : CasperArgs)
    (dn : value -> value) :
  cliTable w = (Returns tt, w1) ->
  dirname (fs w1) = Some dn ->
  casperArgs (phantom w1) = Some ca1 ->
  truthy (casperScriptBaseDir (phantom w1)) = false ->
  let script :=
    if truthy (casperScript (phantom w1)) then casperScript (phantom w1)
    else get_arg ca1 0 in
  isFile (fs w1) script = true ->
  (exists w2,
     initCasperCli w = (Returns tt, w2) /\
     casperScript (phantom w2) = script /\
     casperScriptBaseDir (phantom w2) =
       VString (absolute (fs w1)
                  (if strict_eq (dn script) script then VString "."
                   else dn script))) /\
  (forall s : string,
     strict_eq (dirname_polyfill (VString s)) (VString s) = true <->
     s <> "" /\ has_slash s = false /\ has_backslash s = false).
Proof.
  intros Htable Hdn Hca Hbase script Hfile. split.
  - pose proof (cliLaunch_found w1 ca1 dn Hdn Hca Hfile) as Hlaunch.
    fold script in Hlaunch. rewrite Hbase in Hlaunch.
    eexists. split.
    + unfold initCasperCli. rewrite (bind_Returns _ _ _ _ _ Htable).
      exact Hlaunch.
    + split; reflexivity.
  - intros s. unfold strict_eq. rewrite bool_decide_eq_true.
    apply dirname_polyfill_fixed.
Qed.

Lemma base_dir_from_script_witness :
  let w := demo_cli_world ["/home/user/script.js"] ["script.js"; "--flag"] in
  exists w2,
    initCasperCli w = (Returns tt, w2) /\
    casperScript (phantom w2) = VString "script.js" /\
    casperScriptBaseDir (phantom w2) = VString "/home/user/.".
Proof.
  intros w.
  destruct (base_dir_from_script w w
              {| options := {[ "flag" := VBool true ]}; args := ["script.js"] |}
              dirname_polyfill) as [(w2 & Hplan & Hscript & Hbase) _].
  - vm_compute. reflexivity.
  - reflexivity.
  - vm_compute. reflexivity.
  - reflexivity.
  - vm_compute. reflexivity.
  - exists w2. split; [exact Hplan|]. split; [exact Hscript|].
    rewrite Hbase. vm_compute. reflexivity.
Defined.

(** ** The initialiser *)

Section Keeps.
Context {X : Type} (f : World -> X).

Lemma keeps_ret {A} (a : A) : keeps f (ret a).
Proof. intros w. reflexivity. Qed.

Lemma keeps_lift {A} (x : outcome A) : keeps f (lift x).
Proof. intros w. reflexivity. Qed.

Lemma keeps_reads {A} (g : World -> A) : keeps f (reads g).
Proof. intros w. reflexivity. Qed.

Lemma keeps_modify (g : World -> World) :
  (forall w, f (g w) = f w) -> keeps f (modify g).
Proof. intros Hg w. apply Hg. Qed.

Lemma keeps_bind {A B} (m : M A) (k : A -> M B) :
  keeps f m -> (forall a, keeps f (k a)) -> keeps f (bind m k).
Proof.
  intros Hm Hk w. unfold bind. specialize (Hm w).
  destruct (m w) as [[a|e|c] w1]; cbn in *; try assumption.
  rewrite Hk. assumption.
Qed.

Lemma keeps_try_catchM {A} (m : M A) (h : exn -> M A) :
  keeps f m -> (forall e, keeps f (h e)) -> keeps f (try_catchM m h).
Proof.
  intros Hm Hh w. unfold try_catchM. specialize (Hm w).
  destruct (m w) as [[a|e|c] w1]; cbn in *; try assumption.
  rewrite Hh. assumption.
Qed.

Lemma keeps_unchanged {A} (m : M A) :
  (forall w, (m w).2 = w) -> keeps f m.
Proof. intros Hm w. rewrite Hm. reflexivity. Qed.
End Keeps.

(** Discharges [keeps] goals by following the structure of the code. *)
Ltac keeps_step :=
  first
    [ apply keeps_ret | apply keeps_lift | apply keeps_reads
    | apply keeps_bind; [|intros ?]
    | apply keeps_try_catchM; [|intros ?]
    | apply keeps_modify; intros ?; reflexivity
    | match goal with
      | |- keeps _ (if ?b then _ else _) => destruct b
      | |- keeps _ (match ?x with _ => _ end) => destruct x
      end
    | apply keeps_unchanged; intros ?; cbn; repeat case_match; reflexivity ].

Ltac solve_keeps := repeat keeps_step.

Lemma keeps_trace_free_die {X A} (f : World -> X) (message : value) :
  (forall e w, f (log_event e w) = f w) -> keeps f (@__die A message).
Proof.
  intros Hlog. unfold __die, phantom_exit. solve_keeps.
  apply keeps_modify. intros w. apply Hlog.
Qed.

Lemma keeps_trace_free_terminate {X A} (f : World -> X) (message : value) :
  (forall e w, f (log_event e w) = f w) -> keeps f (@__terminate A message).
Proof.
  intros Hlog. unfold __terminate, phantom_exit. solve_keeps.
  apply keeps_modify. intros w. apply Hlog.
Qed.

Lemma initCasperCli_keeps_loaded : keeps loaded_flag initCasperCli.
Proof.
  unfold initCasperCli, cliTable, cliLaunch, printHelp, the_casperArgs,
    casperVersion_toString, update_args, fs_pathJoin, fs_dirname, fs_absolute,
    fs_isFile.
  repeat first [ keeps_step
               | apply keeps_trace_free_die; intros ? ?; reflexivity
               | apply keeps_trace_free_terminate; intros ? ?; reflexivity ].
Qed.

Lemma prepare_keeps_loaded (host : Host) : keeps loaded_flag (prepare host).
Proof.
  unfold prepare, checkVersion, findCasperPath, getCasperVersion,
    installRequire, call_loader, throw, fs_pathJoin, fs_absolute.
  repeat first [ keeps_step
               | apply keeps_trace_free_die; intros ? ?; reflexivity ].
Qed.

Lemma initialise_keeps_loaded (host : Host) :
  keeps loaded_flag (initialise host).
Proof.
  unfold initialise. apply keeps_bind; [apply prepare_keeps_loaded|].
  intros parsed. destruct (strict_eq _ _);
    [apply initCasperCli_keeps_loaded | apply keeps_ret].
Qed.

Lemma bind_Returns_inv {A B} (m : M A) (k : A -> M B) (w w' : World) (b : B) :
  bind m k w = (Returns b, w') ->
  exists a w1, m w = (Returns a, w1) /\ k a w1 = (Returns b, w').
Proof.
  unfold bind. destruct (m w) as [[a|e|c] w1]; intros H;
    [eauto | discriminate | discriminate].
Qed.

Lemma bind_modify {B} (g : World -> World) (k : unit -> M B) (w : World) :
  bind (modify g) k w = k tt (g w).
Proof. reflexivity. Qed.

Lemma bind_reads {A B} (g : World -> A) (k : A -> M B) (w : World) :
  bind (reads g) k w = k (g w) w.
Proof. reflexivity. Qed.

Lemma checkVersion_Returns (w w1 : World) :
  checkVersion w = (Returns tt, w1) -> w1 = w.
Proof.
  unfold checkVersion. rewrite bind_reads.
  repeat case_match; try (intros [= <-]; reflexivity);
    unfold __die, phantom_exit, bind, lift, modify; cbn; discriminate.
Qed.

Lemma findCasperPath_Returns (w w1 : World) :
  findCasperPath w = (Returns tt, w1) ->
  exists root, w1 = update_phantom (set_casperPath root) w.
Proof.
  unfold findCasperPath. rewrite bind_reads.
  destruct (truthy (casperPath (phantom w))); cbn.
  - intros [= <-]. exists (casperPath (phantom w)).
    destruct w as [? ? ? ? ? [] ?]. reflexivity.
  - unfold try_catchM, bind, reads, modify, __die, phantom_exit, lift.
    destruct (ph_args (phantom w)); cbn; [|discriminate].
    intros [= <-]. eauto.
Qed.

Lemma getCasperVersion_state (host : Host) (root : value) (w : World) :
  (getCasperVersion host root w).2 = w.
Proof.
  unfold getCasperVersion, bind, fs_pathJoin, fs_absolute, reads, throw, lift,
    try_catchM.
  cbn. repeat (case_match; cbn; simplify_eq; try reflexivity).
Qed.

Lemma call_loader_state (r : loc) (path : value) (w : World) :
  (call_loader r path w).2 = w.
Proof. unfold call_loader. case_match; reflexivity. Qed.

Lemma installRequire_Returns (w w1 : World) :
  installRequire w = (Returns tt, w1) ->
  exists h' p,
    patchRequire (heap w) (global_require w) = Some (h', p) /\
    w1 = set_global_require p
           (set_heap h'
              (set_global_patchRequire true
                 (set_global___require (Some (global_require w)) w))).
Proof.
  unfold installRequire. rewrite bind_reads, !bind_modify, bind_reads. cbn.
  destruct (patchRequire (heap w) (global_require w)) as [[h' p]|];
    [|discriminate].
  rewrite bind_modify. cbn. intros [= <-]. eauto.
Qed.

Lemma patchRequire_result_patched (h h' : gmap loc funobj) (r p : loc) :
  patchRequire h r = Some (h', p) ->
  exists o, h' !! p = Some o /\ truthy (fn_patched o) = true.
Proof.
  unfold patchRequire. destruct (h !! r) as [o|] eqn:Hr; [|discriminate].
  destruct (truthy (fn_patched o)) eqn:Hp; intros [= <- <-].
  - eauto.
  - eexists. split; [apply lookup_insert_eq | reflexivity].
Qed.

(** What holds once [prepare] has returned. *)
Lemma prepare_Returns (host : Host) (w wp : World) (parsed : CasperArgs) :
  prepare host w = (Returns parsed, wp) ->
  checkVersion w = (Returns tt, w) /\
  ph_onError (phantom wp) = onPhantomError /\
  fs wp = patchFs (fs w) /\
  is_Some (casperVersion (phantom wp)) /\
  global___require wp = Some (global_require w) /\
  global_patchRequire wp = true /\
  (exists o, heap wp !! global_require wp = Some o /\
             truthy (fn_patched o) = true) /\
  casperArgs (phantom wp) = Some parsed.
Proof.
  unfold prepare. intros H.
  apply bind_Returns_inv in H as ([] & w1 & Hcheck & H).
  pose proof (checkVersion_Returns _ _ Hcheck) as ->.
  rewrite !bind_modify in H.
  apply bind_Returns_inv in H as ([] & w2 & Hfind & H).
  apply findCasperPath_Returns in Hfind as [root ->].
  rewrite bind_reads in H.
  apply bind_Returns_inv in H as (version & w3 & Hversion & H).
  pose proof (getCasperVersion_state host
                (casperPath (phantom (update_phantom (set_casperPath root)
                   (set_fs (patchFs (fs (update_phantom
                      (set_ph_onError onPhantomError) w)))
                      (update_phantom (set_ph_onError onPhantomError) w)))))
                (update_phantom (set_casperPath root)
                   (set_fs (patchFs (fs (update_phantom
                      (set_ph_onError onPhantomError) w)))
                      (update_phantom (set_ph_onError onPhantomError) w))))
    as Hstate.
  rewrite Hversion in Hstate. cbn [snd] in Hstate. subst w3.
  rewrite bind_modify in H.
  apply bind_Returns_inv in H as ([] & w4 & Hinstall & H).
  apply installRequire_Returns in Hinstall as (h' & p & Hpatch & ->).
  rewrite bind_reads in H.
  apply bind_Returns_inv in H as (cli & w5 & Hcli & H).
  match type of Hcli with
  | call_loader ?r ?path ?w = _ =>
      pose proof (call_loader_state r path w) as Hstate
  end.
  rewrite Hcli in Hstate. cbn [snd] in Hstate. subst w5.
  rewrite bind_reads in H.
  apply bind_Returns_inv in H as (parsed' & w6 & Hparse & H).
  unfold lift in Hparse. injection Hparse as Hparse <-.
  rewrite bind_modify in H. unfold ret in H. injection H as <- <-.
  cbn. repeat split; try (exact Hcheck); eauto.
  exact (patchRequire_result_patched _ _ _ _ Hpatch).
Qed.

Lemma runScript_keeps_loaded (host : Host) : keeps loaded_flag (runScript host).
Proof.
  unfold runScript.
  repeat first [ keeps_step
               | apply keeps_trace_free_die; intros ? ?; reflexivity ].
Qed.

(** C9: when the loaded flag is already set on entry the initialiser
    returns at once and leaves the state, trace included, as it is.  When it
    is not set: no step before the flag assignment sets it, wherever those
    steps end (by returning, by throwing, or at a call of [phantom.exit]);
    when one of them throws, the initialiser ends there with the flag
    unset; when all of them have returned, the version check has passed,
    the error handler, the file-system members, the package version, the
    patched require and the parsed arguments are in place and the planner,
    when it was called, has returned; the flag is then set to [true], only
    the script execution follows, the flag is still [true] where that ends,
    and a further run returns at once. *)
Theorem bootstrap_runs_once (host : Host) (w : World) :
  (truthy (casperLoaded (phantom w)) = true ->
   bootstrap host w = (Returns tt, w)) /\
  (truthy (casperLoaded (phantom w)) = false ->
   (forall (o : outcome unit) (wi : World),
      initialise host w = (o, wi) ->
      casperLoaded (phantom wi) = casperLoaded (phantom w)) /\
   (forall (e : exn) (wi : World),
      initialise host w = (Throws e, wi) ->
      bootstrap host w = (Throws e, wi)) /\
   (forall wi : World,
      initialise host w = (Returns tt, wi) ->
      (exists (parsed : CasperArgs) (wp : World),
         prepare host w = (Returns parsed, wp) /\
         checkVersion w = (Returns tt, w) /\
         ph_onError (phantom wp) = onPhantomError /\
         fs wp = patchFs (fs w) /\
         is_Some (casperVersion (phantom wp)) /\
         global___require wp = Some (global_require w) /\
         (exists o, heap wp !! global_require wp = Some o /\
                    truthy (fn_patched o) = true) /\
         casperArgs (phantom wp) = Some parsed /\
         (if strict_eq (VBool true) (get_option parsed "cli")
          then initCasperCli wp = (Returns tt, wi) else wi = wp)) /\
      bootstrap host w
        = runScript host (update_phantom (set_casperLoaded (VBool true)) wi) /\
      casperLoaded (phantom (bootstrap host w).2) = VBool true /\
      bootstrap host (bootstrap host w).2
        = (Returns tt, (bootstrap host w).2))).
Proof.
  split.
  - intros Hloaded. unfold bootstrap. rewrite bind_reads, Hloaded. reflexivity.
  - intros Hloaded. split; [|split].
    + intros o wi Hinit.
      pose proof (initialise_keeps_loaded host w) as Hkeep.
      rewrite Hinit in Hkeep. exact Hkeep.
    + intros e wi Hinit. unfold bootstrap. rewrite bind_reads, Hloaded.
      apply bind_Throws. exact Hinit.
    + intros wi Hinit.
      assert (Hrun : bootstrap host w
                     = runScript host
                         (update_phantom (set_casperLoaded (VBool true)) wi)).
      { unfold bootstrap. rewrite bind_reads, Hloaded.
        rewrite (bind_Returns _ _ _ _ _ Hinit). rewrite bind_modify.
        reflexivity. }
      assert (Hflag : casperLoaded (phantom (bootstrap host w).2) = VBool true).
      { rewrite Hrun.
        exact (runScript_keeps_loaded host
                 (update_phantom (set_casperLoaded (VBool true)) wi)). }
      split; [|split; [exact Hrun | split; [exact Hflag|]]].
      * unfold initialise in Hinit.
        apply bind_Returns_inv in Hinit as (parsed & wp & Hprepare & Hcli).
        pose proof (prepare_Returns host w wp parsed Hprepare)
          as (Hcheck & Herr & Hfs & Hver & Hreq & _ & Hpatched & Hargs).
        exists parsed, wp. repeat (split; [assumption|]).
        destruct (strict_eq (VBool true) (get_option parsed "cli"));
          [exact Hcli | unfold ret in Hcli; congruence].
      * unfold bootstrap at 1. rewrite bind_reads, Hflag. reflexivity.
Qed.

Lemma bootstrap_runs_once_witness :
  let fresh :=
    demo_world ["/opt/casperjs/package.json"; "/opt/casperjs/modules/cli.js";
                "/home/user/s.js"] ["/opt/casperjs"] "/home/user"
      [("/opt/casperjs/modules/cli.js", 9%positive)] VUndefined
      (Some ["--casper-path=/opt/casperjs"; "--cli"; "s.js"]) in
  let loaded := update_phantom (set_casperLoaded (VBool true)) fresh in
  let thrown :=
    demo_world [] [] "/home/user" [] VUndefined (Some ["--cli"; "s.js"]) in
  bootstrap demo_host loaded = (Returns tt, loaded) /\
  (casperLoaded (phantom (bootstrap demo_host fresh).2) = VBool true /\
   bootstrap demo_host (bootstrap demo_host fresh).2
     = (Returns tt, (bootstrap demo_host fresh).2)) /\
  ((bootstrap demo_host thrown).1
     = Throws (CasperError "Cannot find package.json at /package.json") /\
   casperLoaded (phantom (bootstrap demo_host thrown).2) = VUndefined).
Proof.
  intros fresh loaded thrown. split; [|split].
  - apply (bootstrap_runs_once demo_host loaded). reflexivity.
  - destruct (proj2 (bootstrap_runs_once demo_host fresh) eq_refl)
      as (_ & _ & Hdone).
    destruct (Hdone (initialise demo_host fresh).2)
      as (_ & _ & Hflag & Hagain).
    + vm_compute. reflexivity.
    + split; assumption.
  - destruct (proj2 (bootstrap_runs_once demo_host thrown) eq_refl)
      as (Hkeep & Hthrow & _).
    rewrite (Hthrow (CasperError "Cannot find package.json at /package.json")
               (initialise demo_host thrown).2).
    + split; [reflexivity|].
      exact (Hkeep (initialise demo_host thrown).1
               (initialise demo_host thrown).2 ltac:(vm_compute; reflexivity)).
    + vm_compute. reflexivity.
Defined.

(** When the root path is not preset and no argument yields an existing
    directory, the discovery returns normally and leaves [casperPath]
    undefined: nothing is printed and the process does not exit. *)
Lemma findCasperPath_not_found (w : World) (argv : list string) :
  truthy (casperPath (phantom w)) = false ->
  ph_args (phantom w) = Some argv ->
  List.filter (_filter (fs w)) (map (_map (fs w)) argv) = [] ->
  findCasperPath w = (Returns tt, update_phantom (set_casperPath VUndefined) w).
Proof.
  intros Hroot Hargs Hnone.
  unfold findCasperPath. rewrite bind_reads, Hroot. cbn.
  unfold try_catchM, bind, reads, modify. rewrite Hargs. cbn.
  rewrite Hnone. reflexivity.
Qed.

(** The discovery dies only when [phantom.args] cannot be mapped. *)
Lemma findCasperPath_dies (w : World) :
  truthy (casperPath (phantom w)) = false ->
  ph_args (phantom w) = None ->
  findCasperPath w =
    (Exits 1,
     log_event (ConsoleError
       "Couldn't find nor compute phantom.casperPath, exiting.") w).
Proof.
  intros Hroot Hargs.
  unfold findCasperPath. rewrite bind_reads, Hroot. cbn.
  unfold try_catchM, bind, reads, modify. rewrite Hargs. reflexivity.
Qed.

(** C7 on the code: with [phantom.casperPath] not preset and no
    [--casper-path] argument, the initialiser does not exit with code 1.
    Where [/package.json] is missing it ends with an uncaught CasperError
    and an empty trace; where [/package.json] and [/modules/cli.js] exist it
    installs the patched require, plans and runs the script, with
    [casperPath] still undefined. *)
Theorem undetermined_root_path_not_fatal :
  let argv := Some ["--cli"; "script.js"] in
  let bare := demo_world [] [] "/home/user" [] VUndefined argv in
  let stray :=
    demo_world ["/package.json"; "/modules/cli.js"; "/home/user/script.js"] []
      "/home/user" [("/modules/cli.js", 9%positive)] VUndefined argv in
  ((bootstrap demo_host bare).1
     = Throws (CasperError "Cannot find package.json at /package.json") /\
   trace (bootstrap demo_host bare).2 = []) /\
  ((bootstrap demo_host stray).1 = Returns tt /\
   casperPath (phantom (bootstrap demo_host stray).2) = VUndefined /\
   global_require (bootstrap demo_host stray).2 <> global_require stray /\
   casperLoaded (phantom (bootstrap demo_host stray).2) = VBool true /\
   trace (bootstrap demo_host stray).2 = [InjectJs (VString "script.js")]).
Proof.
  vm_compute. repeat split. discriminate.
Qed.

(** * Further properties *)

(** ** Version check and file-system members *)

(** X1: the version check returns, leaving the state as it is, exactly for
    PhantomJS 1.x with x.y at least 8.1; otherwise it prints one non-empty
    diagnostic on the error stream and the process exits with code 1. *)
Theorem checkVersion_supported_iff (w : World) :
  let v := ph_version (phantom w) in
  let supported :=
    pv_major v = 1 /\ (8 < pv_minor v \/ (pv_minor v = 8 /\ 1 <= pv_patch v)) in
  (checkVersion w = (Returns tt, w) <-> supported) /\
  (~ supported ->
   exists msg, msg <> "" /\
     checkVersion w = (Exits 1, log_event (ConsoleError msg) w)).
Proof.
  intros v supported. subst supported.
  unfold checkVersion. rewrite bind_reads. fold v.
  destruct (pv_major v =? 1) eqn:Hmajor; cbn [negb].
  - apply Z.eqb_eq in Hmajor.
    destruct (pv_minor v <? 8) eqn:Hlow.
    + apply Z.ltb_lt in Hlow. split.
      * split; [discriminate | lia].
      * intros _. eexists. split; [|reflexivity]. discriminate.
    + apply Z.ltb_ge in Hlow.
      destruct ((pv_minor v =? 8) && (pv_patch v <? 1)) eqn:Hpatch.
      * apply andb_true_iff in Hpatch as [Heq Hlt].
        apply Z.eqb_eq in Heq. apply Z.ltb_lt in Hlt. split.
        -- split; [discriminate | lia].
        -- intros _. eexists. split; [|reflexivity]. discriminate.
      * apply andb_false_iff in Hpatch. split.
        -- split; [intros _ | reflexivity].
           split; [assumption|].
           destruct Hpatch as [Hne | Hge];
             [apply Z.eqb_neq in Hne | apply Z.ltb_ge in Hge]; lia.
        -- intros Hnot. exfalso. apply Hnot. split; [assumption|].
           destruct Hpatch as [Hne | Hge];
             [apply Z.eqb_neq in Hne | apply Z.ltb_ge in Hge]; lia.
  - apply Z.eqb_neq in Hmajor. split.
    + split; [discriminate | lia].
    + intros _. eexists. split; [|reflexivity]. discriminate.
Qed.

Lemma checkVersion_supported_iff_witness :
  let old :=
    update_phantom
      (set_ph_version {| pv_major := 1; pv_minor := 8; pv_patch := 0 |})
      (demo_install_world VUndefined []) in
  checkVersion (demo_install_world VUndefined [])
    = (Returns tt, demo_install_world VUndefined []) /\
  exists msg, checkVersion old = (Exits 1, log_event (ConsoleError msg) old).
Proof.
  intros old. split.
  - apply (checkVersion_supported_iff (demo_install_world VUndefined [])).
    vm_compute. split; [reflexivity|]. left. reflexivity.
  - destruct (checkVersion_supported_iff old) as [_ Hfail].
    destruct Hfail as (msg & _ & Hrun).
    + vm_compute. intros [_ [Hlt | [_ Hle]]]; [discriminate Hlt | apply Hle; reflexivity].
    + exists msg. exact Hrun.
Defined.

(** X3: patching the file-system module twice is the same as patching it
    once. *)
Theorem patchFs_idempotent (m : FsModule) : patchFs (patchFs m) = patchFs m.
Proof.
  destruct m as [ex isf isd ab rd sep wd [bn|] [dn|] [iw|] [jp|] [pj|]];
    reflexivity.
Qed.

(** X4: [patchFs] keeps every member the host provides, with one
    exception: a host [joinPath] replaces [pathJoin], even a [pathJoin] of
    the host; afterwards [basename], [dirname], [isWindows] and [pathJoin]
    are all present. *)
Theorem patchFs_members (m : FsModule) :
  (exists_ (patchFs m) = exists_ m /\ isFile (patchFs m) = isFile m /\
   isDirectory (patchFs m) = isDirectory m /\ absolute (patchFs m) = absolute m /\
   read (patchFs m) = read m /\ separator (patchFs m) = separator m /\
   workingDirectory (patchFs m) = workingDirectory m /\
   joinPath (patchFs m) = joinPath m) /\
  (forall f, basename m = Some f -> basename (patchFs m) = Some f) /\
  (forall f, dirname m = Some f -> dirname (patchFs m) = Some f) /\
  (forall f, isWindows m = Some f -> isWindows (patchFs m) = Some f) /\
  (forall j, joinPath m = Some j -> pathJoin (patchFs m) = Some j) /\
  (forall f, joinPath m = None -> pathJoin m = Some f ->
     pathJoin (patchFs m) = Some f) /\
  is_Some (basename (patchFs m)) /\ is_Some (dirname (patchFs m)) /\
  is_Some (isWindows (patchFs m)) /\ is_Some (pathJoin (patchFs m)).
Proof.
  destruct m as [ex isf isd ab rd sep wd [bn|] [dn|] [iw|] [jp|] [pj|]];
    cbn; repeat split; intros; simplify_eq; eauto.
Qed.

Lemma patchFs_members_witness :
  let host_join := fun segments : list value => join "|" (map toStr segments) in
  let m := set_pathJoin (Some (pathJoin_polyfill "/"))
             (demo_fs [] [] "/home/user") in
  let m' :=
    {| exists_ := exists_ m; isFile := isFile m; isDirectory := isDirectory m;
       absolute := absolute m; read := read m; separator := separator m;
       workingDirectory := workingDirectory m; basename := basename m;
       dirname := dirname m; isWindows := isWindows m;
       joinPath := Some host_join; pathJoin := pathJoin m |} in
  pathJoin (patchFs m) = Some (pathJoin_polyfill "/") /\
  pathJoin (patchFs m') = Some host_join.
Proof.
  intros host_join m m'. split.
  - destruct (patchFs_members m) as (_ & _ & _ & _ & _ & Hkeep & _).
    apply Hkeep; reflexivity.
  - destruct (patchFs_members m') as (_ & _ & _ & _ & Hjoin & _).
    apply Hjoin. reflexivity.
Defined.

(** ** Paths: [pathJoin], [dirname] and [basename] of [patchFs] *)

Lemma append_cons (c : ascii) (a b : string) :
  String c a +:+ b = String c (a +:+ b).
Proof. reflexivity. Qed.

Lemma append_nil (b : string) : "" +:+ b = b.
Proof. reflexivity. Qed.

Lemma has_slash_app (a b : string) :
  has_slash (a +:+ b) = has_slash a || has_slash b.
Proof.
  induction a as [|c a IH]; rewrite ?append_cons, ?append_nil; cbn;
    [reflexivity|].
  rewrite IH. apply orb_assoc.
Qed.

Lemma has_backslash_app (a b : string) :
  has_backslash (a +:+ b) = has_backslash a || has_backslash b.
Proof.
  induction a as [|c a IH]; rewrite ?append_cons, ?append_nil; cbn;
    [reflexivity|].
  rewrite IH. apply orb_assoc.
Qed.

Lemma backslashes_to_slashes_app (a b : string) :
  backslashes_to_slashes (a +:+ b)
    = backslashes_to_slashes a +:+ backslashes_to_slashes b.
Proof.
  induction a as [|c a IH]; rewrite ?append_cons, ?append_nil; cbn;
    [reflexivity | now rewrite IH].
Qed.

Lemma cut_last_slash_app (a b : string) :
  has_slash b = false -> cut_last_slash (a +:+ String "/" b) = a.
Proof.
  intros Hb. induction a as [|c a IH]; rewrite ?append_cons, ?append_nil; cbn.
  - rewrite Hb. reflexivity.
  - rewrite has_slash_app. cbn. rewrite orb_true_r. now rewrite IH.
Qed.

(** A string with a slash splits at its last slash. *)
Lemma split_at_last_slash (s : string) :
  has_slash s = true ->
  exists a b, s = a +:+ String "/" b /\ has_slash b = false.
Proof.
  induction s as [|c s IH]; cbn; [discriminate|].
  destruct (has_slash s) eqn:Hs.
  - intros _. destruct (IH eq_refl) as (a & b & -> & Hb).
    exists (String c a), b. split; [reflexivity | assumption].
  - rewrite orb_false_r. unfold is_slash. intros Hc.
    apply bool_decide_eq_true in Hc as ->.
    exists "", s. split; [reflexivity | assumption].
Qed.

Lemma has_line_terminator_app (a b : string) :
  has_line_terminator (a +:+ b)
    = has_line_terminator a || has_line_terminator b.
Proof.
  induction a as [|c a IH]; rewrite ?append_cons, ?append_nil; cbn;
    [reflexivity|].
  rewrite IH. apply orb_assoc.
Qed.

Lemma line_has_slash_has_slash (s : string) :
  has_slash s = false -> line_has_slash s = false.
Proof.
  induction s as [|c s IH]; cbn; [reflexivity|].
  intros H. apply orb_false_iff in H as [-> Hs].
  rewrite (IH Hs). destruct (is_line_terminator c); reflexivity.
Qed.

Lemma line_has_slash_app (a b : string) :
  has_line_terminator a = false -> line_has_slash (a +:+ String "/" b) = true.
Proof.
  induction a as [|c a IH]; rewrite ?append_cons, ?append_nil; cbn;
    [reflexivity|].
  intros H. apply orb_false_iff in H as [-> Ha].
  rewrite (IH Ha). apply orb_true_r.
Qed.

Lemma after_last_line_slash_app (a b : string) :
  has_line_terminator a = false -> has_slash b = false ->
  after_last_line_slash (a +:+ String "/" b) = b.
Proof.
  intros Ha Hb. induction a as [|c a IH]; rewrite ?append_cons, ?append_nil; cbn.
  - rewrite (line_has_slash_has_slash b Hb). reflexivity.
  - cbn in Ha. apply orb_false_iff in Ha as [-> Ha].
    rewrite (line_has_slash_app a b Ha). apply IH, Ha.
Qed.

Lemma remove_dirs_app (a b : string) :
  has_line_terminator a = false -> has_slash b = false ->
  remove_dirs (a +:+ String "/" b) = b.
Proof.
  intros Ha Hb.
  pose proof (line_has_slash_app a b Ha) as Hline.
  pose proof (after_last_line_slash_app a b Ha Hb) as Hafter.
  destruct a as [|c a]; rewrite ?append_cons, ?append_nil in *; cbn in *.
  - rewrite (line_has_slash_has_slash b Hb) in *. reflexivity.
  - apply orb_false_iff in Ha as [Hc Ha]. rewrite Hc in *.
    rewrite Hline. exact Hafter.
Qed.

Lemma append_slash (a b : string) : a +:+ "/" +:+ b = a +:+ String "/" b.
Proof. reflexivity. Qed.

Lemma append_separator_nonempty (a sep b : string) :
  sep <> "" -> a +:+ sep +:+ b <> "".
Proof.
  intros Hsep. destruct a; cbn; [|discriminate].
  destruct sep; cbn; [congruence | discriminate].
Qed.

(** X5: [dirname] undoes [pathJoin]: for a separator "/" or "\" and a last
    segment without separators, the directory of the joined path is the
    first segment, with its backslashes turned into slashes. *)
Theorem dirname_of_pathJoin (sep dir name : string) :
  sep = "/" \/ sep = "\" ->
  has_slash name = false ->
  has_backslash name = false ->
  dirname_polyfill
    (VString (pathJoin_polyfill sep [VString dir; VString name]))
  = VString (backslashes_to_slashes dir).
Proof.
  intros Hsep Hslash Hback.
  assert (Hjoin : pathJoin_polyfill sep [VString dir; VString name]
                  = dir +:+ sep +:+ name) by reflexivity.
  rewrite Hjoin. unfold dirname_polyfill.
  assert (Hne : dir +:+ sep +:+ name <> "").
  { apply append_separator_nonempty. destruct Hsep as [-> | ->]; discriminate. }
  apply truthy_VString in Hne. rewrite Hne. cbn [toStr]. f_equal.
  rewrite !backslashes_to_slashes_app.
  apply backslashes_to_slashes_fixed in Hback. rewrite Hback.
  replace (backslashes_to_slashes sep) with "/"
    by (destruct Hsep as [-> | ->]; reflexivity).
  rewrite append_slash. apply cut_last_slash_app, Hslash.
Qed.

Lemma dirname_of_pathJoin_witness :
  dirname_polyfill
    (VString (pathJoin_polyfill "\" [VString "c:\casper\tests"; VString "run.js"]))
  = VString "c:/casper/tests".
Proof.
  rewrite (dirname_of_pathJoin "\" "c:\casper\tests" "run.js").
  - reflexivity.
  - right. reflexivity.
  - reflexivity.
  - reflexivity.
Defined.

(** X6: [basename] undoes [pathJoin]: with "/" as the separator, a first
    segment without line terminator and a last segment without slash, the
    base name of the joined path is the last segment. *)
Theorem basename_of_pathJoin (dir name : string) :
  has_line_terminator dir = false ->
  has_slash name = false ->
  basename_polyfill
    (VString (pathJoin_polyfill "/" [VString dir; VString name]))
  = Returns name.
Proof.
  intros Hdir Hname.
  change (pathJoin_polyfill "/" [VString dir; VString name])
    with (dir +:+ "/" +:+ name).
  unfold basename_polyfill. f_equal. rewrite append_slash.
  apply remove_dirs_app; assumption.
Qed.

Lemma basename_of_pathJoin_witness :
  basename_polyfill
    (VString (pathJoin_polyfill "/" [VString "/opt/casperjs/tests";
                                     VString "run.js"]))
  = Returns "run.js".
Proof.
  apply (basename_of_pathJoin "/opt/casperjs/tests" "run.js"); reflexivity.
Defined.

(** X7: a path with a slash, without backslash and without line terminator
    is put together again from its [dirname] and its [basename] by
    [pathJoin] with "/". *)
Theorem dirname_basename_recompose (s : string) :
  has_slash s = true ->
  has_backslash s = false ->
  has_line_terminator s = false ->
  exists d b,
    dirname_polyfill (VString s) = VString d /\
    basename_polyfill (VString s) = Returns b /\
    pathJoin_polyfill "/" [VString d; VString b] = s.
Proof.
  intros Hslash Hback Hline.
  destruct (split_at_last_slash s Hslash) as (a & b & -> & Hb).
  rewrite has_backslash_app in Hback.
  apply orb_false_iff in Hback as [Haback Hbback].
  rewrite has_line_terminator_app in Hline.
  apply orb_false_iff in Hline as [Ha _].
  exists a, b. split; [|split].
  - unfold dirname_polyfill.
    assert (Hne : a +:+ String "/" b <> "")
      by (apply (append_separator_nonempty a "/" b); discriminate).
    apply truthy_VString in Hne. rewrite Hne. cbn [toStr]. f_equal.
    rewrite backslashes_to_slashes_app.
    apply backslashes_to_slashes_fixed in Haback, Hbback.
    rewrite Haback, Hbback. apply cut_last_slash_app, Hb.
  - unfold basename_polyfill. f_equal. apply remove_dirs_app; assumption.
  - reflexivity.
Qed.

Lemma dirname_basename_recompose_witness :
  exists d b,
    dirname_polyfill (VString "/home/user/script.js") = VString d /\
    basename_polyfill (VString "/home/user/script.js") = Returns b /\
    pathJoin_polyfill "/" [VString d; VString b] = "/home/user/script.js".
Proof.
  apply (dirname_basename_recompose "/home/user/script.js"); reflexivity.
Defined.

(** ** Root path and package version *)

Lemma findCasperPath_preset (w : World) :
  truthy (casperPath (phantom w)) = true ->
  findCasperPath w = (Returns tt, w).
Proof.
  intros Hroot. unfold findCasperPath. rewrite bind_reads, Hroot. reflexivity.
Qed.

Lemma pop_filter (f : value -> bool) (l : list value) :
  pop (List.filter f l) = VUndefined \/ f (pop (List.filter f l)) = true.
Proof.
  unfold pop. destruct (last (List.filter f l)) as [x|] eqn:Hlast; cbn.
  - right. apply last_Some_elem_of, list_elem_of_In in Hlast.
    apply List.filter_In in Hlast. apply Hlast.
  - left. reflexivity.
Qed.

(** X8: the discovery never sets a root path that is not an existing
    directory: when it returns, [phantom.casperPath] is the preset path,
    or [undefined], or a path for which [fs.isDirectory] holds; nothing
    else of the state changes. *)
Theorem findCasperPath_result (w w' : World) :
  findCasperPath w = (Returns tt, w') ->
  w' = update_phantom (set_casperPath (casperPath (phantom w'))) w /\
  ((truthy (casperPath (phantom w)) = true /\
    casperPath (phantom w') = casperPath (phantom w)) \/
   (truthy (casperPath (phantom w)) = false /\
    (casperPath (phantom w') = VUndefined \/
     isDirectory (fs w) (casperPath (phantom w')) = true))).
Proof.
  unfold findCasperPath. rewrite bind_reads.
  destruct (truthy (casperPath (phantom w))) eqn:Hroot; cbn [negb].
  - intros [= <-]. split; [|left; split; reflexivity].
    destruct w as [? ? ? ? ? [] ?]. reflexivity.
  - unfold try_catchM, bind, reads, modify, __die, phantom_exit, lift.
    destruct (ph_args (phantom w)) as [argv|]; cbn; [|discriminate].
    intros [= <-]. cbn. split; [reflexivity|]. right. split; [reflexivity|].
    apply (pop_filter (_filter (fs w))).
Qed.

Lemma findCasperPath_result_witness :
  let w := demo_install_world VUndefined
             ["--casper-path=/nowhere"; "--casper-path=/opt/other"] in
  isDirectory (fs w) (casperPath (phantom (findCasperPath w).2)) = true.
Proof.
  intros w.
  destruct (findCasperPath_result w (findCasperPath w).2) as [_ Hroot].
  - vm_compute. reflexivity.
  - destruct Hroot as [[Hpreset _] | [_ [Hnone | Hdir]]].
    + vm_compute in Hpreset. discriminate Hpreset.
    + vm_compute in Hnone. discriminate Hnone.
    + exact Hdir.
Defined.

Lemma pop_app_singleton (l : list value) (v : value) : pop (l ++ [v]) = v.
Proof. unfold pop. rewrite last_snoc. reflexivity. Qed.

Lemma filter_rejects_all {A} (f : A -> bool) (l : list A) :
  Forall (fun a => f a = false) l -> List.filter f l = [].
Proof.
  induction 1 as [|a l Ha _ IH]; cbn; [reflexivity|].
  rewrite Ha. exact IH.
Qed.

(** X9: among several [--casper-path] arguments the last one naming an
    existing directory wins: the root path becomes the absolute form of its
    value, cut at the first line terminator, whatever precedes it. *)
Theorem findCasperPath_last_wins (w : World) (before after : list string)
    (arg rest : string) :
  truthy (casperPath (phantom w)) = false ->
  ph_args (phantom w) = Some (before ++ arg :: after) ->
  strip_prefix "--casper-path=" arg = Some rest ->
  let found := VString (absolute (fs w) (VString (until_line_terminator rest))) in
  isDirectory (fs w) found = true ->
  Forall (fun a => _filter (fs w) (_map (fs w) a) = false) after ->
  findCasperPath w = (Returns tt, update_phantom (set_casperPath found) w).
Proof.
  intros Hroot Hargs Hprefix found Hdir Hafter.
  unfold findCasperPath. rewrite bind_reads, Hroot. cbn [negb].
  unfold try_catchM, bind, reads, modify. rewrite Hargs. cbn.
  rewrite map_app, List.filter_app. cbn [map List.filter].
  assert (Harg : _map (fs w) arg = found).
  { unfold _map. rewrite Hprefix. reflexivity. }
  rewrite Harg. unfold _filter at 2. rewrite Hdir.
  rewrite (filter_rejects_all (_filter (fs w)) (map (_map (fs w)) after)).
  - rewrite pop_app_singleton. reflexivity.
  - apply Forall_map. exact Hafter.
Qed.

Lemma findCasperPath_last_wins_witness :
  let w := demo_install_world VUndefined
             ["--casper-path=/opt/other"; "--casper-path=/opt/casperjs";
              "--casper-path=/nowhere"; "script.js"] in
  findCasperPath w
    = (Returns tt, update_phantom (set_casperPath (VString "/opt/casperjs")) w).
Proof.
  intros w.
  apply (findCasperPath_last_wins w ["--casper-path=/opt/other"]
           ["--casper-path=/nowhere"; "script.js"]
           "--casper-path=/opt/casperjs" "/opt/casperjs").
  - reflexivity.
  - reflexivity.
  - reflexivity.
  - vm_compute. reflexivity.
  - repeat constructor.
Defined.

Lemma patchFs_absolute (m : FsModule) : absolute (patchFs m) = absolute m.
Proof.
  destruct m as [ex isf isd ab rd sep wd [bn|] [dn|] [iw|] [jp|] [pj|]];
    reflexivity.
Qed.

Lemma patchFs_exists (m : FsModule) : exists_ (patchFs m) = exists_ m.
Proof.
  destruct m as [ex isf isd ab rd sep wd [bn|] [dn|] [iw|] [jp|] [pj|]];
    reflexivity.
Qed.

(** X10: with a supported PhantomJS and a preset root path whose
    [package.json] does not exist, the initialiser throws a CasperError
    naming the file it looked for; the error handler and the file-system
    members are installed by then, the loaders are not touched and nothing
    is printed. *)
Theorem bootstrap_missing_package (host : Host) (w : World)
    (pj : list value -> string) :
  truthy (casperLoaded (phantom w)) = false ->
  checkVersion w = (Returns tt, w) ->
  truthy (casperPath (phantom w)) = true ->
  pathJoin (patchFs (fs w)) = Some pj ->
  let pkgFile :=
    absolute (fs w)
      (VString (pj [casperPath (phantom w); VString "package.json"])) in
  exists_ (fs w) (VString pkgFile) = false ->
  bootstrap host w =
    (Throws (CasperError ("Cannot find package.json at " +:+ pkgFile)),
     set_fs (patchFs (fs w))
       (update_phantom (set_ph_onError onPhantomError) w)).
Proof.
  intros Hloaded Hcheck Hroot Hpj pkgFile Hmissing.
  unfold bootstrap. rewrite bind_reads, Hloaded.
  apply bind_Throws. unfold initialise. apply bind_Throws.
  unfold prepare. rewrite (bind_Returns _ _ _ _ _ Hcheck).
  rewrite !bind_modify.
  rewrite (bind_Returns _ _ _ _ _
             (findCasperPath_preset
                (set_fs (patchFs (fs (update_phantom
                   (set_ph_onError onPhantomError) w)))
                   (update_phantom (set_ph_onError onPhantomError) w))
                Hroot)).
  rewrite bind_reads. apply bind_Throws.
  unfold getCasperVersion, fs_pathJoin, fs_absolute, bind, reads, throw, lift.
  cbn [fs set_fs update_phantom set_phantom phantom casperPath set_ph_onError].
  rewrite Hpj. cbn [call_method].
  rewrite patchFs_absolute, patchFs_exists. fold pkgFile.
  rewrite Hmissing. reflexivity.
Qed.

Lemma bootstrap_missing_package_witness :
  let w := demo_world [] ["/opt/casperjs"] "/home/user" []
             (VString "/opt/casperjs") (Some ["--cli"; "script.js"]) in
  bootstrap demo_host w =
    (Throws (CasperError
       "Cannot find package.json at /opt/casperjs/package.json"),
     set_fs (patchFs (fs w))
       (update_phantom (set_ph_onError onPhantomError) w)).
Proof.
  intros w.
  apply (bootstrap_missing_package demo_host w (pathJoin_polyfill "/")).
  - reflexivity.
  - reflexivity.
  - reflexivity.
  - reflexivity.
  - vm_compute. reflexivity.
Defined.

(** ** Version strings *)

Lemma wrap32_range (n : Z) : - 2 ^ 31 <= Num.wrap32 n < 2 ^ 31.
Proof.
  unfold Num.wrap32.
  pose proof (Z.mod_pos_bound n (2 ^ 32) ltac:(lia)) as Hmod.
  destruct (2 ^ 31 <=? n mod 2 ^ 32) eqn:Hhigh;
    [apply Z.leb_le in Hhigh | apply Z.leb_gt in Hhigh]; lia.
Qed.

Lemma or_zero_double_tilde_range (s : string) :
  - 2 ^ 31 <= or_zero (Num.double_tilde s) < 2 ^ 31.
Proof.
  unfold or_zero, Num.double_tilde.
  destruct (Num.ToInt32 (Num.ToNumber s) =? 0) eqn:Hzero; [lia|].
  unfold Num.ToInt32. destruct (Num.ToNumber s); try lia.
  apply wrap32_range.
Qed.

(** X11: whatever the version string, the major, minor and patch numbers
    [parseVersion] returns are 32-bit signed integers. *)
Theorem parseVersion_int32 (version : string) (v : CasperVersion) :
  parseVersion version = Returns v ->
  (- 2 ^ 31 <= major v < 2 ^ 31) /\
  (- 2 ^ 31 <= minor v < 2 ^ 31) /\
  (- 2 ^ 31 <= patch v < 2 ^ 31).
Proof.
  unfold parseVersion.
  destruct (Z.of_nat (length (split "." (trim version))) <? 3);
    [discriminate|].
  intros [= <-]. cbn [major minor patch].
  repeat split; apply or_zero_double_tilde_range.
Qed.

Lemma parseVersion_int32_witness :
  exists v, parseVersion "4294967297.99999999999.2147483648" = Returns v /\
            major v = 1 /\ - 2 ^ 31 <= minor v < 2 ^ 31 /\
            patch v = - 2 ^ 31.
Proof.
  eexists. split; [vm_compute; reflexivity|].
  split; [reflexivity|]. split; [|reflexivity].
  apply (parseVersion_int32 "4294967297.99999999999.2147483648" _ eq_refl).
Defined.

Lemma all_white_app (a b : string) :
  all_white (a +:+ b) = all_white a && all_white b.
Proof.
  induction a as [|c a IH]; rewrite ?append_cons, ?append_nil; cbn;
    [reflexivity|].
  rewrite IH. apply andb_assoc.
Qed.

Lemma trim_left_white (a b : string) :
  all_white a = true -> trim_left (a +:+ b) = trim_left b.
Proof.
  induction a as [|c a IH]; rewrite ?append_cons, ?append_nil; cbn;
    [reflexivity|].
  intros H. apply andb_true_iff in H as [-> Ha]. apply IH, Ha.
Qed.

Lemma trim_right_all_white (s : string) :
  all_white s = true -> trim_right s = "".
Proof. destruct s as [|c s]; cbn; [reflexivity|]. intros ->. reflexivity. Qed.

Lemma trim_right_white (a b : string) :
  all_white b = true -> trim_right (a +:+ b) = trim_right a.
Proof.
  intros Hb. induction a as [|c a IH]; rewrite ?append_cons, ?append_nil.
  - apply trim_right_all_white, Hb.
  - cbn. rewrite all_white_app, Hb, andb_true_r, IH. reflexivity.
Qed.

Lemma trim_left_not_white (a b : string) :
  all_white a = false -> trim_left (a +:+ b) = trim_left a +:+ b.
Proof.
  induction a as [|c a IH]; rewrite ?append_cons, ?append_nil; cbn;
    [discriminate|].
  destruct (is_white c); cbn; [exact IH | reflexivity].
Qed.

Lemma trim_left_all_white (s : string) :
  all_white s = true -> trim_left s = "".
Proof.
  induction s as [|c s IH]; cbn; [reflexivity|].
  intros H. apply andb_true_iff in H as [-> Hs]. apply IH, Hs.
Qed.

Lemma trim_surrounded (a s b : string) :
  all_white a = true -> all_white b = true ->
  trim (a +:+ s +:+ b) = trim s.
Proof.
  intros Ha Hb. unfold trim. rewrite (trim_left_white a _ Ha).
  destruct (all_white s) eqn:Hs.
  - rewrite (trim_left_all_white s Hs).
    rewrite trim_left_all_white; [reflexivity|].
    rewrite all_white_app, Hs, Hb. reflexivity.
  - rewrite (trim_left_not_white s b Hs). apply trim_right_white, Hb.
Qed.

(** X12: white space around the version string is ignored: a version read
    with spaces, tabs or line breaks before and after it parses as the
    version alone. *)
Theorem parseVersion_ignores_surrounding_space (a version b : string) :
  all_white a = true ->
  all_white b = true ->
  parseVersion (a +:+ version +:+ b) = parseVersion version.
Proof.
  intros Ha Hb. unfold parseVersion.
  rewrite (trim_surrounded a version b Ha Hb). reflexivity.
Qed.

Lemma parseVersion_ignores_surrounding_space_witness :
  parseVersion ("  " +:+ "1.1.0-DEV" +:+ String "010" " ")
  = Returns {| major := 1; minor := 1; patch := 0; ident := "DEV" |}.
Proof.
  rewrite (parseVersion_ignores_surrounding_space "  " "1.1.0-DEV"
             (String "010" " ")).
  - vm_compute. reflexivity.
  - reflexivity.
  - reflexivity.
Defined.

(** *** Printing a version and reading it back *)

Lemma digit_of_pretty_N_char (d : N) :
  (d < 10)%N -> Num.digit_of (pretty_N_char d) = Some (Z.of_N d).
Proof.
  intros Hd.
  assert (d = 0 \/ d = 1 \/ d = 2 \/ d = 3 \/ d = 4 \/ d = 5 \/ d = 6 \/
          d = 7 \/ d = 8 \/ d = 9)%N as Hcases by lia.
  repeat (destruct Hcases as [-> | Hcases]; [reflexivity|]).
  subst. reflexivity.
Qed.

Lemma digits_value_snoc (ds : list Z) (d acc : Z) :
  fold_left (fun acc d => acc * 10 + d) (ds ++ [d]) acc
  = fold_left (fun acc d => acc * 10 + d) ds acc * 10 + d.
Proof. rewrite fold_left_app. reflexivity. Qed.

(** The digits [pretty_N_go] puts in front of a string of digits. *)
Lemma span_digits_pretty_N_go (x : N) :
  forall (s : string) (ds : list Z),
    Num.span_digits s = (ds, "") ->
    exists dx,
      Num.span_digits (pretty_N_go x s) = (dx ++ ds, "") /\
      (x <> 0%N -> dx <> []) /\
      forall acc,
        fold_left (fun acc d => acc * 10 + d) dx acc
        = acc * 10 ^ Z.of_nat (length dx) + Z.of_N x.
Proof.
  induction (N.lt_wf_0 x) as [x _ IH]. intros s ds Hs.
  destruct (decide (x = 0%N)) as [-> | Hpos].
  - rewrite pretty_N_go_0. exists []. split; [exact Hs|].
    split; [congruence|]. intros acc. cbn. lia.
  - rewrite pretty_N_go_step by lia.
    assert (Hd : (x `mod` 10 < 10)%N) by (apply N.mod_lt; lia).
    destruct (IH (x `div` 10)%N ltac:(apply N.div_lt; lia)
                (String (pretty_N_char (x `mod` 10)) s)
                (Z.of_N (x `mod` 10) :: ds)) as (dx & Hspan & _ & Hval).
    { cbn. rewrite (digit_of_pretty_N_char _ Hd), Hs. reflexivity. }
    exists (dx ++ [Z.of_N (x `mod` 10)]). split; [|split].
    + rewrite <- app_assoc. exact Hspan.
    + intros _. destruct dx; discriminate.
    + intros acc. rewrite digits_value_snoc, Hval, length_app. cbn [length].
      rewrite Nat2Z.inj_add, Z.pow_add_r by lia.
      change (Z.of_nat 1) with 1. rewrite Z.pow_1_r.
      pose proof (N.div_mod x 10 ltac:(lia)) as Hdm.
      apply (f_equal Z.of_N) in Hdm.
      rewrite N2Z.inj_add, N2Z.inj_mul in Hdm.
      change (Z.of_N 10) with 10 in Hdm. lia.
Qed.

(** A non-negative integer prints as its decimal digits. *)
Lemma span_digits_pretty (z : Z) :
  0 <= z ->
  exists ds, ds <> [] /\ Num.span_digits (pretty z) = (ds, "") /\
             Num.digits_value 10 ds = z.
Proof.
  intros Hz. destruct z as [|p|p]; [| |lia].
  - exists [0]. repeat split. discriminate.
  - change (pretty (Z.pos p)) with (pretty_N_go (N.pos p) "").
    destruct (span_digits_pretty_N_go (N.pos p) "" [] eq_refl)
      as (dx & Hspan & Hne & Hval).
    rewrite app_nil_r in Hspan. exists dx. split; [|split].
    + apply Hne. discriminate.
    + exact Hspan.
    + unfold Num.digits_value. rewrite Hval. cbn. lia.
Qed.

Lemma digit_not_white (c : ascii) (d : Z) :
  Num.digit_of c = Some d -> is_white c = false.
Proof.
  destruct c as [[] [] [] [] [] [] [] []]; vm_compute; congruence.
Qed.

Lemma span_digits_cons (c : ascii) (r : string) (ds : list Z) :
  Num.span_digits (String c r) = (ds, "") ->
  exists d ds', Num.digit_of c = Some d /\ Num.span_digits r = (ds', "") /\
                ds = d :: ds'.
Proof.
  cbn. destruct (Num.digit_of c) as [d|]; [|discriminate].
  destruct (Num.span_digits r) as [ds' rest]. intros [= <- ->]. eauto.
Qed.

Lemma span_digits_no_char (c : ascii) (s : string) (ds : list Z) :
  Num.digit_of c = None -> Num.span_digits s = (ds, "") -> split c s = [s].
Proof.
  intros Hc. revert ds. induction s as [|x s IH]; intros ds Hs;
    [reflexivity|].
  apply span_digits_cons in Hs as (d & ds' & Hx & Hs & ->).
  cbn. rewrite bool_decide_eq_false_2 by congruence.
  now rewrite (IH ds' Hs).
Qed.

Lemma trim_right_digits (s : string) (ds : list Z) :
  Num.span_digits s = (ds, "") -> trim_right s = s.
Proof.
  revert ds. induction s as [|c s IH]; intros ds Hs; [reflexivity|].
  apply span_digits_cons in Hs as (d & ds' & Hc & Hs & ->).
  cbn. rewrite (digit_not_white c d Hc). cbn. now rewrite (IH ds' Hs).
Qed.

Lemma trim_digits (s : string) (ds : list Z) :
  Num.span_digits s = (ds, "") -> trim s = s.
Proof.
  intros Hs. unfold trim.
  replace (trim_left s) with s; [exact (trim_right_digits s ds Hs)|].
  destruct s as [|c s]; [reflexivity|].
  apply span_digits_cons in Hs as (d & ds' & Hc & _).
  cbn. now rewrite (digit_not_white c d Hc).
Qed.

Lemma hex_literal_digits (s : string) (ds : list Z) :
  Num.span_digits s = (ds, "") -> Num.hex_literal s = None.
Proof.
  intros Hs. destruct s as [|c [|x r]];
    [reflexivity | destruct c as [[] [] [] [] [] [] [] []]; reflexivity |].
  apply span_digits_cons in Hs as (d & ds' & _ & Hs & _).
  apply span_digits_cons in Hs as (dx & _ & Hx & _).
  assert (Hnx : x <> "x"%char) by (intros ->; discriminate Hx).
  assert (HnX : x <> "X"%char) by (intros ->; discriminate Hx).
  destruct c as [[] [] [] [] [] [] [] []]; try reflexivity.
  cbn. rewrite !bool_decide_eq_false_2 by assumption. reflexivity.
Qed.

Lemma unsigned_decimal_digits (neg : bool) (s : string) (ds : list Z) :
  ds <> [] -> Num.span_digits s = (ds, "") ->
  Num.unsigned_decimal neg s = Num.Finite neg (Num.digits_value 10 ds) 0.
Proof.
  intros Hne Hs. unfold Num.unsigned_decimal.
  destruct (decide (s = "Infinity")) as [-> | Hinf];
    [vm_compute in Hs; discriminate Hs|].
  rewrite bool_decide_eq_false_2 by assumption. rewrite Hs.
  destruct ds as [|d ds]; [congruence|]. reflexivity.
Qed.

Lemma ToNumber_digits (s : string) (ds : list Z) :
  ds <> [] -> Num.span_digits s = (ds, "") ->
  Num.ToNumber s = Num.Finite false (Num.digits_value 10 ds) 0.
Proof.
  intros Hne Hs. unfold Num.ToNumber.
  rewrite (trim_digits s ds Hs), (hex_literal_digits s ds Hs).
  rewrite <- (unsigned_decimal_digits false s ds Hne Hs).
  destruct s as [|c r]; [cbn in Hs; congruence|].
  destruct (span_digits_cons c r ds Hs) as (d & _ & Hc & _).
  destruct c as [[] [] [] [] [] [] [] []]; try reflexivity;
    vm_compute in Hc; discriminate Hc.
Qed.

Lemma round_trunc_exact (z : Z) : 0 <= z < 2 ^ 53 -> Num.round_trunc z 1 = z.
Proof.
  intros Hz. unfold Num.round_trunc.
  destruct (z =? 0) eqn:Hzero; [apply Z.eqb_eq in Hzero; lia|].
  apply Z.eqb_neq in Hzero.
  change (Z.log2 1) with 0. rewrite Z.sub_0_r.
  pose proof (Z.log2_nonneg z) as Hlog.
  pose proof (Z.log2_spec z ltac:(lia)) as [Hlow Hhigh].
  assert (Hlt : Z.log2 z < 53).
  { apply Z.log2_lt_pow2; lia. }
  replace (0 <=? Z.log2 z) with true by (symmetry; apply Z.leb_le; lia).
  replace (1 * 2 ^ Z.log2 z <=? z) with true
    by (symmetry; apply Z.leb_le; lia).
  destruct (0 <=? Z.log2 z + 1 - 53) eqn:Hs.
  - apply Z.leb_le in Hs. assert (Z.log2 z + 1 - 53 = 0) as -> by lia.
    change (1 * 2 ^ 0) with 1. rewrite Z.div_1_r, Z.mod_1_r.
    change ((1 <? 2 * 0) || (2 * 0 =? 1) && Z.odd z) with false.
    cbn iota. lia.
  - apply Z.leb_gt in Hs.
    rewrite Z.div_1_r, Z.mod_1_r.
    change ((1 <? 2 * 0) || (2 * 0 =? 1) &&
            Z.odd (z * 2 ^ (- (Z.log2 z + 1 - 53)))) with false.
    cbn iota. apply Z.div_mul. apply Z.pow_nonzero; lia.
Qed.

(** [~~s || 0] reads the decimal print of a 31-bit natural number back. *)
Lemma double_tilde_pretty (z : Z) :
  0 <= z < 2 ^ 31 -> or_zero (Num.double_tilde (pretty z)) = z.
Proof.
  intros Hz.
  destruct (span_digits_pretty z ltac:(lia)) as (ds & Hne & Hs & Hval).
  unfold Num.double_tilde. rewrite (ToNumber_digits _ ds Hne Hs), Hval.
  unfold Num.ToInt32. cbn [Z.leb Z.compare Z.pow]. rewrite Z.mul_1_r.
  rewrite round_trunc_exact by lia.
  unfold Num.wrap32. rewrite Z.mod_small by lia.
  replace (2 ^ 31 <=? z) with false by (symmetry; apply Z.leb_gt; lia).
  unfold or_zero. destruct (z =? 0) eqn:Hzero;
    [apply Z.eqb_eq in Hzero; lia | reflexivity].
Qed.

Lemma append_assoc (a b c : string) : (a +:+ b) +:+ c = a +:+ b +:+ c.
Proof.
  induction a as [|x a IH]; rewrite ?append_cons, ?append_nil;
    [reflexivity | now rewrite IH].
Qed.

Lemma append_empty_r (a : string) : a +:+ "" = a.
Proof.
  induction a as [|x a IH]; rewrite ?append_cons, ?append_nil;
    [reflexivity | now rewrite IH].
Qed.

Lemma has_char_app (c : ascii) (a b : string) :
  has_char c (a +:+ b) = has_char c a || has_char c b.
Proof.
  induction a as [|x a IH]; rewrite ?append_cons, ?append_nil; cbn;
    [reflexivity|].
  rewrite IH. apply orb_assoc.
Qed.

Lemma split_no_separator (c : ascii) (s : string) :
  has_char c s = false -> split c s = [s].
Proof.
  induction s as [|x s IH]; cbn; [reflexivity|].
  intros H. apply orb_false_iff in H as [-> Hs]. now rewrite (IH Hs).
Qed.

Lemma split_at_separator (c : ascii) (a b : string) :
  has_char c a = false -> split c (a +:+ String c b) = a :: split c b.
Proof.
  induction a as [|x a IH]; rewrite ?append_cons, ?append_nil; cbn.
  - intros _. rewrite bool_decide_eq_true_2 by reflexivity. reflexivity.
  - intros H. apply orb_false_iff in H as [-> Ha]. now rewrite (IH Ha).
Qed.

Lemma has_char_digits (c : ascii) (s : string) (ds : list Z) :
  Num.digit_of c = None -> Num.span_digits s = (ds, "") ->
  has_char c s = false.
Proof.
  intros Hc. revert ds. induction s as [|x s IH]; intros ds Hs;
    [reflexivity|].
  apply span_digits_cons in Hs as (d & ds' & Hx & Hs & ->).
  cbn. rewrite bool_decide_eq_false_2 by congruence. exact (IH ds' Hs).
Qed.

Lemma trim_right_keeps_end (a b : string) :
  all_white b = false -> trim_right b = b -> trim_right (a +:+ b) = a +:+ b.
Proof.
  intros Hwhite Hb. induction a as [|x a IH];
    rewrite ?append_cons, ?append_nil; [exact Hb|].
  cbn. rewrite all_white_app, Hwhite, andb_false_r, andb_false_r.
  now rewrite IH.
Qed.

Lemma all_white_digits (s : string) (ds : list Z) :
  ds <> [] -> Num.span_digits s = (ds, "") -> all_white s = false.
Proof.
  intros Hne Hs. destruct s as [|c r]; [cbn in Hs; congruence|].
  apply span_digits_cons in Hs as (d & _ & Hc & _).
  cbn. now rewrite (digit_not_white c d Hc).
Qed.

(** X13: printing a version and reading it back gives the version again,
    for major, minor and patch numbers from 0 to 2^31 - 1 and an ident
    without "." and "-" that does not end in white space. *)
Theorem parseVersion_version_toString (v : CasperVersion) :
  0 <= major v < 2 ^ 31 ->
  0 <= minor v < 2 ^ 31 ->
  0 <= patch v < 2 ^ 31 ->
  has_char "." (ident v) = false ->
  has_char "-" (ident v) = false ->
  trim_right (ident v) = ident v ->
  parseVersion (version_toString v) = Returns v.
Proof.
  destruct v as [M m p i]. cbn [major minor patch ident].
  intros HM Hm Hp Hdot Hdash Htrim.
  destruct (span_digits_pretty M ltac:(lia)) as (dM & HneM & HsM & _).
  destruct (span_digits_pretty m ltac:(lia)) as (dm & Hnem & Hsm & _).
  destruct (span_digits_pretty p ltac:(lia)) as (dp & Hnep & Hsp & _).
  (* the printed version is [M.m.last], where [last] holds the patch number
     and the ident *)
  set (last := if truthy (VString i) then pretty p +:+ String "-" i
               else pretty p).
  assert (Hprint : version_toString {| major := M; minor := m; patch := p;
                                       ident := i |}
                   = pretty M +:+ String "." (pretty m +:+ String "." last)).
  { unfold version_toString, last. cbn [major minor patch ident join].
    destruct (truthy (VString i)); [|reflexivity].
    change (((pretty M +:+ "." +:+ pretty m +:+ "." +:+ pretty p) +:+ "-" +:+ i)
            = pretty M +:+ String "." (pretty m +:+ String "."
                (pretty p +:+ String "-" i))).
    repeat rewrite append_assoc. reflexivity. }
  assert (Hlast_dot : has_char "." last = false).
  { unfold last. destruct (truthy (VString i)).
    - rewrite has_char_app, (has_char_digits "." _ dp eq_refl Hsp). cbn.
      exact Hdot.
    - exact (has_char_digits "." _ dp eq_refl Hsp). }
  assert (Hlast_white : all_white last = false /\ trim_right last = last).
  { unfold last. destruct (truthy (VString i)) eqn:Hi.
    - apply truthy_VString in Hi.
      assert (Hiw : all_white i = false).
      { destruct (all_white i) eqn:Hw; [|reflexivity].
        rewrite (trim_right_all_white i Hw) in Htrim. congruence. }
      split.
      + rewrite all_white_app. cbn. apply andb_false_r.
      + replace (pretty p +:+ String "-" i) with ((pretty p +:+ "-") +:+ i)
          by (rewrite append_assoc; reflexivity).
        apply trim_right_keeps_end; assumption.
    - split; [exact (all_white_digits _ dp Hnep Hsp)
             | exact (trim_right_digits _ dp Hsp)]. }
  destruct Hlast_white as [Hlast_white Hlast_trim].
  assert (Hsplit_patch :
            toStr (nth_string (split "-" last) 0) = pretty p /\
            toStr (or_else (nth_string (split "-" last) 1) (VString "")) = i).
  { unfold last. destruct (truthy (VString i)) eqn:Hi.
    - rewrite (split_at_separator "-" (pretty p) i
                 (has_char_digits "-" _ dp eq_refl Hsp)).
      rewrite (split_no_separator "-" i Hdash). cbn [nth_string lookup].
      split; [reflexivity|]. unfold nth_string. cbn. unfold or_else.
      rewrite Hi. reflexivity.
    - rewrite (split_no_separator "-" _ (has_char_digits "-" _ dp eq_refl Hsp)).
      split; [reflexivity|]. cbn.
      destruct i as [|c i]; [reflexivity | discriminate Hi]. }
  destruct Hsplit_patch as [Hpatch Hident].
  rewrite Hprint. unfold parseVersion.
  assert (Htrimmed : trim (pretty M +:+ String "." (pretty m +:+ String "." last))
                     = pretty M +:+ String "." (pretty m +:+ String "." last)).
  { unfold trim.
    replace (trim_left (pretty M +:+ String "." (pretty m +:+ String "." last)))
      with (pretty M +:+ String "." (pretty m +:+ String "." last)).
    - replace (pretty M +:+ String "." (pretty m +:+ String "." last))
        with ((pretty M +:+ String "." (pretty m +:+ ".")) +:+ last)
        by (repeat (rewrite ?append_assoc, ?append_cons); reflexivity).
      apply trim_right_keeps_end; assumption.
    - destruct (pretty M) as [|c r] eqn:HpM; [cbn in HsM; congruence|].
      destruct (span_digits_cons c r dM HsM) as (d & _ & Hc & _).
      rewrite append_cons. cbn. now rewrite (digit_not_white c d Hc). }
  rewrite Htrimmed.
  rewrite (split_at_separator "." (pretty M) _
             (has_char_digits "." _ dM eq_refl HsM)).
  rewrite (split_at_separator "." (pretty m) _
             (has_char_digits "." _ dm eq_refl Hsm)).
  rewrite (split_no_separator "." last Hlast_dot).
  change (Z.of_nat (length [pretty M; pretty m; last]) <? 3) with false.
  change (toStr (nth_string [pretty M; pretty m; last] 0)) with (pretty M).
  change (toStr (nth_string [pretty M; pretty m; last] 1)) with (pretty m).
  change (toStr (nth_string [pretty M; pretty m; last] 2)) with last.
  rewrite Hpatch, Hident.
  rewrite !double_tilde_pretty by assumption. reflexivity.
Qed.

Lemma parseVersion_version_toString_witness :
  parseVersion
    (version_toString {| major := 1; minor := 1; patch := 0; ident := "DEV" |})
  = Returns {| major := 1; minor := 1; patch := 0; ident := "DEV" |}.
Proof.
  apply (parseVersion_version_toString
           {| major := 1; minor := 1; patch := 0; ident := "DEV" |});
    cbn; try lia; reflexivity.
Defined.

(** ** Loaders *)

(** X14: with no builtin file, a local candidate that is a file is loaded
    by the primitive loader, the one with the extension when both are
    files; whatever the primitive returns or throws for it is passed on
    unchanged. *)
Theorem patchedRequire_local (w : World) (require : value -> outcome loc)
    (n : string) (pj : list value -> string) :
  pathJoin (fs w) = Some pj ->
  let baseDir :=
    or_else (casperScriptBaseDir (phantom w)) (workingDirectory (fs w)) in
  let builtin :=
    pj [casperPath (phantom w); VString "modules"; VString (n +:+ ".js")] in
  let bare := absolute (fs w) (VString (pj [baseDir; VString n])) in
  let js := absolute (fs w) (VString (pj [baseDir; VString (n +:+ ".js")])) in
  let found := if isFile (fs w) (VString js) then js else bare in
  isFile (fs w) (VString builtin) = false ->
  isFile (fs w) (VString js) = true \/ isFile (fs w) (VString bare) = true ->
  found <> "" ->
  patchedRequire w require (VString n) = require (VString found).
Proof.
  intros Hpj baseDir builtin bare js found Hbuiltin Hlocal Hne.
  unfold patchedRequire.
  rewrite (casperBuiltinPath_missing w (VString n) pj Hpj Hbuiltin).
  cbn [obind truthy].
  rewrite (localModulePath_last_existing w (VString n) pj Hpj).
  change (concat (VString n) (VString ".js")) with (n +:+ ".js").
  fold baseDir. fold js. fold bare. cbn [obind].
  apply truthy_VString in Hne. subst found.
  destruct (isFile (fs w) (VString js)).
  - rewrite Hne. reflexivity.
  - destruct Hlocal as [Hjs | Hbare]; [discriminate|].
    rewrite Hbare, Hne. reflexivity.
Qed.

Lemma patchedRequire_local_witness :
  patchedRequire demo_module_world
    (demo_require [("/home/user/only.js", 11%positive)]) (VString "only")
  = Returns 11%positive.
Proof.
  rewrite (patchedRequire_local demo_module_world _ "only"
             (pathJoin_polyfill "/")).
  - reflexivity.
  - reflexivity.
  - vm_compute. reflexivity.
  - left. vm_compute. reflexivity.
  - vm_compute. discriminate.
Defined.

(** X15: when neither the builtin nor a local candidate is a file, the
    primitive loader is called with the name as given, and what it returns
    is the result. *)
Theorem patchedRequire_fallback (w : World) (require : value -> outcome loc)
    (n : string) (pj : list value -> string) (exports : loc) :
  pathJoin (fs w) = Some pj ->
  let baseDir :=
    or_else (casperScriptBaseDir (phantom w)) (workingDirectory (fs w)) in
  let builtin :=
    pj [casperPath (phantom w); VString "modules"; VString (n +:+ ".js")] in
  let bare := absolute (fs w) (VString (pj [baseDir; VString n])) in
  let js := absolute (fs w) (VString (pj [baseDir; VString (n +:+ ".js")])) in
  isFile (fs w) (VString builtin) = false ->
  isFile (fs w) (VString bare) = false ->
  isFile (fs w) (VString js) = false ->
  require (VString n) = Returns exports ->
  patchedRequire w require (VString n) = Returns exports.
Proof.
  intros Hpj baseDir builtin bare js Hbuiltin Hbare Hjs Hload.
  unfold patchedRequire.
  rewrite (casperBuiltinPath_missing w (VString n) pj Hpj Hbuiltin).
  cbn [obind truthy].
  rewrite (localModulePath_last_existing w (VString n) pj Hpj).
  change (concat (VString n) (VString ".js")) with (n +:+ ".js").
  fold baseDir. fold js. fold bare. rewrite Hjs, Hbare.
  cbn [obind truthy]. rewrite Hload. reflexivity.
Qed.

Lemma patchedRequire_fallback_witness :
  patchedRequire demo_module_world
    (demo_require [("webpage", 12%positive)]) (VString "webpage")
  = Returns 12%positive.
Proof.
  apply (patchedRequire_fallback demo_module_world _ "webpage"
           (pathJoin_polyfill "/")).
  - reflexivity.
  - vm_compute. reflexivity.
  - vm_compute. reflexivity.
  - vm_compute. reflexivity.
  - reflexivity.
Defined.

(** X16: after the installation of the patched require over an unpatched
    loader, calling [global.require] runs [patchedRequire] around the code
    of that loader, and [global.__require] still is that loader: calling it
    runs its code alone. *)
Theorem installRequire_loaders (w : World) (o : funobj) :
  heap w !! global_require w = Some o ->
  truthy (fn_patched o) = false ->
  exists w',
    installRequire w = (Returns tt, w') /\
    global___require w' = Some (global_require w) /\
    global_require w' <> global_require w /\
    (forall path,
       call_loader (global_require w') path w'
       = (patchedRequire w' (run_code w' (fn_code o)) path, w')) /\
    (forall path,
       call_loader (global_require w) path w'
       = (run_code w' (fn_code o) path, w')).
Proof.
  intros Ho Hp.
  unfold installRequire. rewrite bind_reads, !bind_modify, bind_reads.
  cbn [heap set_global_patchRequire set_global___require global_require].
  unfold patchRequire. rewrite Ho, Hp.
  pose proof (is_fresh (dom (heap w))) as Hfresh.
  set (p := fresh (dom (heap w))) in *.
  assert (Hne : p <> global_require w).
  { intros Heq. apply Hfresh. rewrite Heq. apply elem_of_dom. eauto. }
  rewrite bind_modify. eexists. split; [reflexivity|].
  cbn [global___require global_require set_global_require set_heap].
  split; [reflexivity|]. split; [exact Hne|]. split.
  - intros path. unfold call_loader. cbn [heap set_global_require set_heap].
    rewrite lookup_insert_eq. reflexivity.
  - intros path. unfold call_loader. cbn [heap set_global_require set_heap].
    rewrite lookup_insert_ne by exact Hne. rewrite Ho. reflexivity.
Qed.

Lemma installRequire_loaders_witness :
  let w := demo_install_world (VString "/opt/casperjs") ["script.js"] in
  exists w',
    installRequire w = (Returns tt, w') /\
    call_loader (global_require w') (VString "cli")
      (set_fs (patchFs (fs w')) w')
    = (Returns 9%positive, set_fs (patchFs (fs w')) w').
Proof.
  intros w.
  destruct (installRequire_loaders w
              (demo_primitive [("/opt/casperjs/modules/cli.js", 9%positive)]))
    as (w' & Hinstall & _).
  - vm_compute. reflexivity.
  - reflexivity.
  - exists w'. split; [exact Hinstall|].
    vm_compute in Hinstall. injection Hinstall as <-.
    vm_compute. reflexivity.
Defined.

(** ** The rows of the planner *)

Lemma version_toString_nonempty (v : CasperVersion) :
  truthy (VString (version_toString v)) = true.
Proof.
  apply truthy_VString. unfold version_toString. cbn [join].
  destruct (truthy (VString (ident v)));
    apply append_separator_nonempty; discriminate.
Qed.

(** X17: with a truthy [version] option the planner prints the version of
    the package on the standard stream and the process exits with code 0,
    whatever the positionals are; the state is otherwise left as it is. *)
Theorem version_row (w : World) (ca : CasperArgs) (pj : list value -> string)
    (cv : CasperVersion) :
  pathJoin (fs w) = Some pj ->
  casperArgs (phantom w) = Some ca ->
  casperVersion (phantom w) = Some cv ->
  truthy (get_option ca "version") = true ->
  initCasperCli w
    = (Exits 0, log_event (ConsoleLog (version_toString cv)) w).
Proof.
  intros Hpj Hca Hcv Hversion.
  unfold initCasperCli. apply bind_Exits.
  unfold cliTable, bind, reads, fs_pathJoin, the_casperArgs,
    casperVersion_toString, __terminate, phantom_exit, modify, lift, ret.
  rewrite Hpj. cbn [call_method]. rewrite Hca, Hversion, Hcv.
  rewrite version_toString_nonempty. reflexivity.
Qed.

Lemma version_row_witness :
  let w := demo_cli_world [] ["test"; "--version"] in
  initCasperCli w = (Exits 0, log_event (ConsoleLog "1.1.0-DEV") w).
Proof.
  intros w.
  rewrite (version_row w
             {| options := {[ "version" := VBool true ]}; args := ["test"] |}
             (pathJoin_polyfill "/")
             {| major := 1; minor := 1; patch := 0; ident := "DEV" |}).
  - vm_compute. reflexivity.
  - reflexivity.
  - vm_compute. reflexivity.
  - reflexivity.
  - reflexivity.
Defined.

(** X18: without positionals, or with a truthy [help] option when the
    first positional is neither "test" nor "selftest", the planner prints
    one text, which starts with the version line and ends with the contents
    of [<casperPath>/bin/usage.txt], on the standard stream and the process
    exits with code 0; no file is looked for and the state is otherwise
    left as it is. *)
Theorem help_row (w : World) (ca : CasperArgs) (pj : list value -> string)
    (cv : CasperVersion) (usage : string) :
  pathJoin (fs w) = Some pj ->
  casperArgs (phantom w) = Some ca ->
  casperVersion (phantom w) = Some cv ->
  truthy (get_option ca "version") = false ->
  strict_eq (get_arg ca 0) (VString "test") = false ->
  strict_eq (get_arg ca 0) (VString "selftest") = false ->
  args ca = [] \/ truthy (get_option ca "help") = true ->
  read (fs w)
    (VString (pj [casperPath (phantom w); VString "bin"; VString "usage.txt"]))
    = Returns usage ->
  let v := ph_version (phantom w) in
  initCasperCli w
    = (Exits 0,
       log_event (ConsoleLog
         ("CasperJS version " +:+ version_toString cv +:+ " at " +:+
          toStr (casperPath (phantom w)) +:+ ", using PhantomJS version " +:+
          join "." [pretty (pv_major v); pretty (pv_minor v);
                    pretty (pv_patch v)] +:+ nl +:+ usage)) w).
Proof.
  intros Hpj Hca Hcv Hversion Htest Hselftest Hhelp Hread v.
  unfold initCasperCli. apply bind_Exits.
  unfold cliTable, bind, reads, fs_pathJoin, the_casperArgs.
  rewrite Hpj. cbn [call_method]. rewrite Hca, Hversion, Htest, Hselftest.
  replace ((length (args ca) =? 0)%nat || truthy (get_option ca "help"))
    with true.
  - unfold printHelp, bind, reads, fs_pathJoin, casperVersion_toString,
      __terminate, phantom_exit, modify, lift, ret.
    rewrite Hcv, Hpj. cbn [call_method]. rewrite Hread.
    fold v. cbn [join].
    repeat rewrite append_assoc. reflexivity.
  - symmetry. destruct Hhelp as [-> | ->]; [reflexivity | apply orb_true_r].
Qed.

Lemma help_row_witness :
  let w := demo_cli_world [] ["script.js"; "--help"] in
  exists text, initCasperCli w = (Exits 0, log_event (ConsoleLog text) w).
Proof.
  intros w. eexists.
  apply (help_row w
           {| options := {[ "help" := VBool true ]}; args := ["script.js"] |}
           (pathJoin_polyfill "/")
           {| major := 1; minor := 1; patch := 0; ident := "DEV" |}
           "/opt/casperjs/bin/usage.txt").
  - vm_compute. reflexivity.
  - reflexivity.
  - vm_compute. reflexivity.
  - reflexivity.
  - reflexivity.
  - reflexivity.
  - right. reflexivity.
  - reflexivity.
Defined.

(** X19: when [options.version] is falsy and the first positional is
    "test", the table sets the target script to the absolute
    [<casperPath>/tests/run.js], sets [casperTest] and not
    [casperSelfTest], drops "test" and sets the base directory to the
    directory of the first remaining positional, which is [undefined] when
    none remains; planning then continues after the table. *)
Theorem test_row (w : World) (ca : CasperArgs) (pj : list value -> string)
    (dn : value -> value) :
  pathJoin (fs w) = Some pj ->
  dirname (fs w) = Some dn ->
  casperArgs (phantom w) = Some ca ->
  truthy (get_option ca "version") = false ->
  get_arg ca 0 = VString "test" ->
  let baseTestsPath := pj [casperPath (phantom w); VString "tests"] in
  let script :=
    absolute (fs w) (VString (pj [VString baseTestsPath; VString "run.js"])) in
  let remaining :=
    List.filter (fun a => negb (strict_eq (VString a) (VString "test")))
      (args ca) in
  let w' :=
    update_phantom (fun p =>
      set_casperScriptBaseDir (dn (nth_string remaining 0))
        (set_casperArgs (Some {| options := options ca; args := remaining |})
           (set_casperTest (VBool true)
              (set_casperScript (VString script) p)))) w in
  cliTable w = (Returns tt, w') /\
  casperSelfTest (phantom w') = casperSelfTest (phantom w) /\
  initCasperCli w = cliLaunch w'.
Proof.
  intros Hpj Hdn Hca Hversion Hfirst baseTestsPath script remaining w'.
  assert (Htable : cliTable w = (Returns tt, w')).
  { subst w' remaining script baseTestsPath.
    unfold cliTable, bind, reads, fs_pathJoin, the_casperArgs,
      fs_absolute, fs_dirname, update_args, modify, ret.
    repeat (cbn; rewrite ?Hpj, ?Hdn, ?Hca, ?Hversion, ?Hfirst).
    replace (strict_eq (VString "test") (VString "test")) with true
      by reflexivity.
    repeat (cbn; rewrite ?Hpj, ?Hdn, ?Hca).
    unfold update_phantom, get_arg, drop; cbn; rewrite ?Hca; reflexivity. }
  split; [exact Htable|]. split; [reflexivity|].
  unfold initCasperCli. rewrite (bind_Returns _ _ _ _ _ Htable). reflexivity.
Qed.

Lemma test_row_witness :
  let w := demo_cli_world ["/opt/casperjs/tests/run.js"] ["test"] in
  exists w',
    cliTable w = (Returns tt, w') /\
    casperScript (phantom w') = VString "/opt/casperjs/tests/run.js" /\
    casperScriptBaseDir (phantom w') = VUndefined /\
    (args <$> casperArgs (phantom w')) = Some [].
Proof.
  intros w.
  destruct (test_row w {| options := ∅; args := ["test"] |}
              (pathJoin_polyfill "/") dirname_polyfill) as [Htable _].
  - reflexivity.
  - reflexivity.
  - reflexivity.
  - reflexivity.
  - reflexivity.
  - eexists. split; [exact Htable|]. vm_compute. repeat split.
Defined.

(** When no row of the table applies, the table does nothing. *)
Lemma cliTable_no_row (w : World) (ca : CasperArgs)
    (pj : list value -> string) :
  pathJoin (fs w) = Some pj ->
  casperArgs (phantom w) = Some ca ->
  truthy (get_option ca "version") = false ->
  strict_eq (get_arg ca 0) (VString "test") = false ->
  strict_eq (get_arg ca 0) (VString "selftest") = false ->
  args ca <> [] ->
  truthy (get_option ca "help") = false ->
  cliTable w = (Returns tt, w).
Proof.
  intros Hpj Hca Hversion Htest Hselftest Hargs Hhelp.
  unfold cliTable, bind, reads, fs_pathJoin, the_casperArgs, ret.
  rewrite Hpj. cbn [call_method]. rewrite Hca, Hversion, Htest, Hselftest, Hhelp.
  destruct (args ca); [congruence | reflexivity].
Qed.

(** X20: a direct script.  When no row of the table applies, no script and
    no base directory are preset and the first positional is a file, the
    planner returns with that positional as the target script, removed from
    the positionals, and with the absolute form of its directory ("." when
    [dirname] returns the positional itself) as the base directory; the
    test flags are left as they were. *)
Theorem direct_script_plan (w : World) (ca : CasperArgs)
    (pj : list value -> string) (dn : value -> value) (first : string) :
  pathJoin (fs w) = Some pj ->
  dirname (fs w) = Some dn ->
  casperArgs (phantom w) = Some ca ->
  truthy (get_option ca "version") = false ->
  truthy (get_option ca "help") = false ->
  args ca !! 0%nat = Some first ->
  first <> "test" ->
  first <> "selftest" ->
  truthy (casperScript (phantom w)) = false ->
  truthy (casperScriptBaseDir (phantom w)) = false ->
  isFile (fs w) (VString first) = true ->
  let scriptDir :=
    if strict_eq (dn (VString first)) (VString first) then VString "."
    else dn (VString first) in
  initCasperCli w =
    (Returns tt,
     update_phantom (fun p =>
       set_casperArgs
         (Some {| options := options ca;
                  args := List.filter
                            (fun a => negb (strict_eq (VString a) (VString first)))
                            (args ca) |})
         (set_casperScriptBaseDir (VString (absolute (fs w) scriptDir))
            (set_casperScript (VString first) p))) w).
Proof.
  intros Hpj Hdn Hca Hversion Hhelp Hfirst Htest Hselftest Hscript Hbase Hfile
    scriptDir.
  assert (Hget : get_arg ca 0 = VString first).
  { unfold get_arg, nth_string. rewrite Hfirst. reflexivity. }
  assert (Htable : cliTable w = (Returns tt, w)).
  { apply (cliTable_no_row w ca pj); try assumption.
    - rewrite Hget. unfold strict_eq. apply bool_decide_eq_false_2. congruence.
    - rewrite Hget. unfold strict_eq. apply bool_decide_eq_false_2. congruence.
    - intros Hnil. rewrite Hnil in Hfirst. discriminate Hfirst. }
  unfold initCasperCli. rewrite (bind_Returns _ _ _ _ _ Htable).
  pose proof (cliLaunch_found w ca dn Hdn Hca) as Hlaunch.
  cbn zeta in Hlaunch. rewrite Hscript, Hbase, Hget in Hlaunch.
  rewrite (Hlaunch Hfile). reflexivity.
Qed.

Lemma direct_script_plan_witness :
  let w := demo_cli_world ["/home/user/lib/run.js"] ["lib/run.js"; "x"] in
  exists w',
    initCasperCli w = (Returns tt, w') /\
    casperScript (phantom w') = VString "lib/run.js" /\
    casperScriptBaseDir (phantom w') = VString "/home/user/lib" /\
    (args <$> casperArgs (phantom w')) = Some ["x"].
Proof.
  intros w. eexists. split.
  - apply (direct_script_plan w {| options := ∅; args := ["lib/run.js"; "x"] |}
             (pathJoin_polyfill "/") dirname_polyfill "lib/run.js").
    + reflexivity.
    + reflexivity.
    + reflexivity.
    + reflexivity.
    + reflexivity.
    + reflexivity.
    + discriminate.
    + discriminate.
    + reflexivity.
    + reflexivity.
    + vm_compute. reflexivity.
  - vm_compute. repeat split.
Defined.

(** X21: the planner returns only with a target script that is a file: in
    every state it returns in, [fs.isFile] holds for
    [phantom.casperScript]. *)
Theorem planner_returns_with_a_file (w w' : World) :
  initCasperCli w = (Returns tt, w') ->
  isFile (fs w') (casperScript (phantom w')) = true.
Proof.
  unfold initCasperCli. intros Hplan.
  apply bind_Returns_inv in Hplan as ([] & w1 & _ & Hlaunch).
  revert Hlaunch.
  unfold cliLaunch, bind, reads, the_casperArgs, fs_isFile, fs_dirname,
    fs_absolute, update_args, modify, ret, __die, phantom_exit, lift.
  cbn.
  repeat (case_match; cbn in *; simplify_eq; try discriminate);
    intros; simplify_eq; cbn;
    match goal with
    | H : negb ?b = false |- ?b = true => apply negb_false_iff in H; exact H
    end.
Qed.

Lemma planner_returns_with_a_file_witness :
  let w := demo_cli_world ["/opt/casperjs/tests/run.js"] ["selftest"] in
  isFile (fs (initCasperCli w).2) (casperScript (phantom (initCasperCli w).2))
  = true.
Proof.
  intros w.
  apply (planner_returns_with_a_file w (initCasperCli w).2).
  vm_compute. reflexivity.
Defined.

(** ** What planning writes *)

Lemma disciplined_ret {A} (a : A) : disciplined (ret a).
Proof. intros w _. split; reflexivity. Qed.

Lemma disciplined_reads {A} (g : World -> A) : disciplined (reads g).
Proof. intros w _. split; reflexivity. Qed.

Lemma disciplined_modify (g : World -> World) :
  (forall w, fs (g w) = fs w /\ trace (g w) = trace w) ->
  disciplined (modify g).
Proof. intros Hg w _. split; cbn; apply Hg. Qed.

Lemma disciplined_bind {A B} (m : M A) (k : A -> M B) :
  disciplined m -> (forall a, disciplined (k a)) -> disciplined (bind m k).
Proof.
  intros Hm Hk w Hread. unfold bind.
  destruct (Hm w Hread) as [Hfs Htrace].
  destruct (m w) as [[a|e|c] w1]; cbn in *; [|split; assumption..].
  assert (Hread1 : forall p c, read (fs w1) p <> Exits c)
    by (rewrite Hfs; exact Hread).
  destruct (Hk a w1 Hread1) as [Hfs1 Htrace1].
  split; [congruence|].
  destruct (k a w1) as [[b|e|c] w2]; cbn in *; [congruence.. |].
  rewrite <- Htrace. exact Htrace1.
Qed.

Lemma disciplined_silent {A} (m : M A) :
  (forall w, (m w).2 = w /\ forall c, (m w).1 <> Exits c) -> disciplined m.
Proof.
  intros Hm w _. destruct (Hm w) as [Hw Hexit].
  destruct (m w) as [[a|e|c] w1]; cbn in *; subst;
    [split; reflexivity.. |].
  exfalso. exact (Hexit c eq_refl).
Qed.

Lemma disciplined_die (script : value) :
  disciplined
    (@__die unit (VString (concat (VString "Unable to open file: ") script))).
Proof.
  intros w _. split; [reflexivity|]. cbn. eexists. right. split; reflexivity.
Qed.

Lemma disciplined_version :
  disciplined (let! v := casperVersion_toString in @__terminate unit (VString v)).
Proof.
  intros w _. unfold bind, casperVersion_toString.
  destruct (casperVersion (phantom w)) as [cv|]; [|split; reflexivity].
  unfold __terminate, bind, modify, phantom_exit, lift.
  rewrite version_toString_nonempty. split; [reflexivity|].
  cbn. eexists. left. split; reflexivity.
Qed.

Lemma disciplined_printHelp : disciplined (@printHelp unit).
Proof.
  intros w Hread.
  unfold printHelp, bind, reads, casperVersion_toString, fs_pathJoin.
  destruct (casperVersion (phantom w)) as [cv|]; [|split; reflexivity].
  destruct (pathJoin (fs w)) as [pj|]; [|split; reflexivity].
  cbn [call_method].
  destruct (read (fs w) _) as [text|e|c] eqn:Htext;
    [| split; reflexivity | exfalso; exact (Hread _ _ Htext)].
  split; [reflexivity|]. cbn. eexists. left. split; reflexivity.
Qed.

(** Discharges [disciplined] goals by following the structure of the
    code. *)
Ltac disciplined_step :=
  first
    [ apply disciplined_ret | apply disciplined_reads
    | apply disciplined_die | apply disciplined_version
    | apply disciplined_printHelp
    | apply disciplined_bind; [|intros ?]
    | apply disciplined_modify; intros ?; split; reflexivity
    | match goal with
      | |- disciplined (if ?b then _ else _) => destruct b
      | |- disciplined (match ?x with _ => _ end) => destruct x
      end
    | apply disciplined_silent; intros ?; unfold call_method; cbn; split;
      [repeat case_match; reflexivity
      | intros ?; repeat case_match; discriminate] ].

Lemma initCasperCli_disciplined : disciplined initCasperCli.
Proof.
  unfold initCasperCli, cliTable, cliLaunch, the_casperArgs, update_args,
    fs_pathJoin, fs_dirname, fs_absolute, fs_isFile.
  repeat disciplined_step.
Qed.

(** X22: what planning writes.  Where [fs.read] does not itself end the
    process, the planner leaves the file-system module alone and writes
    nothing when it returns or throws; when the process exits, it has
    written exactly one line: on the standard stream with exit code 0 or on
    the error stream with exit code 1.  It never runs a script. *)
Theorem planner_streams (w : World) :
  (forall p c, read (fs w) p <> Exits c) ->
  fs (initCasperCli w).2 = fs w /\
  match (initCasperCli w).1 with
  | Exits c =>
      exists msg,
        (c = 0 /\ trace (initCasperCli w).2 = trace w ++ [ConsoleLog msg]) \/
        (c = 1 /\ trace (initCasperCli w).2 = trace w ++ [ConsoleError msg])
  | _ => trace (initCasperCli w).2 = trace w
  end.
Proof. intros Hread. exact (initCasperCli_disciplined w Hread). Qed.

Lemma planner_streams_witness :
  let w := demo_cli_world [] ["missing.js"] in
  exists msg, trace (initCasperCli w).2 = trace w ++ [ConsoleError msg].
Proof.
  intros w.
  destruct (planner_streams w) as [_ Htrace].
  - intros p c. discriminate.
  - replace (initCasperCli w).1 with (@Exits unit 1) in Htrace
      by (vm_compute; reflexivity).
    destruct Htrace as [msg [[Hcode _] | [_ Htrace]]];
      [discriminate Hcode | exists msg; exact Htrace].
Defined.

(** ** The initialiser, once more *)

(** X23: once the initialiser has returned, running it again changes
    nothing: the second run returns at once in the same state. *)
Theorem bootstrap_second_run (host : Host) (w w' : World) :
  bootstrap host w = (Returns tt, w') ->
  bootstrap host w' = (Returns tt, w').
Proof.
  intros Hrun.
  assert (Hflag : truthy (casperLoaded (phantom w')) = true).
  { unfold bootstrap in Hrun. rewrite bind_reads in Hrun.
    destruct (truthy (casperLoaded (phantom w))) eqn:Hloaded.
    - injection Hrun as <-. exact Hloaded.
    - apply bind_Returns_inv in Hrun as ([] & wi & _ & Hrun).
      rewrite bind_modify in Hrun.
      pose proof (runScript_keeps_loaded host
                    (update_phantom (set_casperLoaded (VBool true)) wi))
        as Hkeep.
      rewrite Hrun in Hkeep. unfold loaded_flag in Hkeep. cbn in Hkeep.
      rewrite Hkeep. reflexivity. }
  unfold bootstrap. rewrite bind_reads, Hflag. reflexivity.
Qed.

Lemma bootstrap_second_run_witness :
  let w := demo_install_world VUndefined
             ["--casper-path=/opt/casperjs"; "--cli"; "script.js"] in
  (bootstrap demo_host w).1 = Returns tt /\
  bootstrap demo_host (bootstrap demo_host w).2
    = (Returns tt, (bootstrap demo_host w).2).
Proof.
  intros w. split; [vm_compute; reflexivity|].
  apply (bootstrap_second_run demo_host w). vm_compute. reflexivity.
Defined.

(** ** The error handler *)

(** X24: the installed error handler first runs the host's handler; when
    that returns, it prints its hint exactly for messages that start with
    "ReferenceError: Can't find variable: casper" and ends the process,
    with code 1 and without a diagnostic of its own, exactly for messages
    that start with "SyntaxError: Parse error"; no message does both. *)
Theorem onPhantomError_effect {T : Type}
    (defaultErrorHandler : string -> T -> M unit) (msg : string) (stack : T)
    (w w1 : World) :
  defaultErrorHandler msg stack w = (Returns tt, w1) ->
  let misuse :=
    bool_decide (is_Some (strip_prefix
      "ReferenceError: Can't find variable: casper" msg)) in
  let syntax :=
    bool_decide (is_Some (strip_prefix "SyntaxError: Parse error" msg)) in
  misuse && syntax = false /\
  onPhantomError_call defaultErrorHandler msg stack w =
    (if syntax then Exits 1 else Returns tt,
     if misuse
     then log_event (ConsoleError
            "Hint: you may want to use the `casperjs test` command.") w1
     else w1).
Proof.
  intros Hdefault misuse syntax. split.
  - subst misuse syntax. destruct msg as [|c msg]; [reflexivity|].
    destruct (decide (c = "R"%char)) as [-> | HR].
    + rewrite andb_comm. reflexivity.
    + cbn. rewrite (bool_decide_eq_false_2 _ (not_eq_sym HR)). reflexivity.
  - unfold onPhantomError_call.
    rewrite (bind_Returns _ _ _ _ _ Hdefault).
    fold misuse. fold syntax.
    destruct misuse, syntax; reflexivity.
Qed.

Lemma onPhantomError_effect_witness :
  let handler := fun (msg : string) (_ : unit) => ret tt in
  let w := demo_install_world VUndefined [] in
  onPhantomError_call handler "SyntaxError: Parse error" tt w = (Exits 1, w) /\
  onPhantomError_call handler
    "ReferenceError: Can't find variable: casper" tt w
  = (Returns tt,
     log_event (ConsoleError
       "Hint: you may want to use the `casperjs test` command.") w).
Proof.
  intros handler w. split.
  - destruct (onPhantomError_effect handler "SyntaxError: Parse error" tt w w
                eq_refl) as [_ Hrun].
    rewrite Hrun. reflexivity.
  - destruct (onPhantomError_effect handler
                "ReferenceError: Can't find variable: casper" tt w w eq_refl)
      as [_ Hrun].
    rewrite Hrun. reflexivity.
Defined.
